(** * Regression-based evoked responses: [mne/stats/regression.py]

    A shallow embedding of [regress_continuous] and of the NumPy / SciPy
    operations it calls, followed by the properties of the pipeline
    (window resolution, predictor construction, design-matrix assembly,
    rejection, solve, response reconstruction).

    Modelling conventions
    - Python exceptions are values of [exn]; a computation that may raise
      has type [result A].
    - The sampling rate and the window bounds are Python floats, modelled
      as IEEE 754 binary64 numbers with their rounding: the products
      [seconds * sfreq] of lines 207-214 and the quotient [tmin_ / sfreq]
      of line 284 are the rounded ones.
    - Signal values, covariate values and rejection thresholds are modelled
      by exact rationals [Q]; the arithmetic on them ([np.dot] and the
      matrix inverse of lines 275-276) is exact here, and rounded in
      NumPy.
    - A 2-d [numpy.ndarray] is a record carrying its shape next to its rows,
      so that arrays with a zero dimension keep the other one.
    - A Python [dict] is an association list in iteration order.
    - Name resolution in the module namespace is explicit: the function
      reads the names [scipy] and [mne], which the module never binds. *)

From Stdlib Require Import ZArith QArith Qround String List Bool Lia.
From Stdlib Require Import Floats.SpecFloat.
From Stdlib Require Import DecimalString DecimalNat.
From stdpp Require Import base list.
Import ListNotations.

Local Open Scope string_scope.
Local Open Scope Z_scope.

(** ** Exceptions and the error monad *)

Inductive exn : Type :=
| NameError (name : string)
| UnboundLocalError (name : string)
| AttributeError (msg : string)
| KeyError (key : string)
| TypeError (msg : string)
| ValueError (msg : string)
| IndexError (msg : string)
| ZeroDivisionError
| OverflowError (msg : string)
| LinAlgError (msg : string).

Inductive result (A : Type) : Type :=
| Ok (a : A)
| Err (e : exn).

Arguments Ok {A} a.
Arguments Err {A} e.

Definition bind {A B : Type} (m : result A) (k : A -> result B) : result B :=
  match m with
  | Ok a => k a
  | Err e => Err e
  end.

Notation "x <- m ;; k" := (bind m (fun x => k))
  (at level 62, m at next level, right associativity).

Fixpoint mapM {A B : Type} (f : A -> result B) (l : list A) : result (list B) :=
  match l with
  | [] => Ok []
  | a :: l' => b <- f a ;; bs <- mapM f l' ;; Ok (b :: bs)
  end.

Definition raises {A : Type} (r : result A) : Prop := exists e, r = Err e.

(** ** Module namespace (lines 7-18)

    The import statements bind exactly these names; the three [def]s add
    the functions of the module.  [from scipy import linalg] binds [linalg]
    only, and no statement binds [scipy] or [mne]. *)

Definition module_globals : list string :=
  [ "namedtuple"; "isgenerator"; "warnings"; "np"; "linalg";
    "SourceEstimate"; "_BaseEpochs"; "Evoked"; "EvokedArray"; "logger";
    "pick_types"; "linear_regression"; "_fit_lm"; "regress_continuous" ].

(** The namespace the function body sees: the module's own bindings, plus
    [extra] names (empty for the module as written). *)
Definition namespace (extra : list string) : list string :=
  extra ++ module_globals.

Definition bound (G : list string) (name : string) : bool :=
  existsb (String.eqb name) G.

(** Evaluating a global name. *)
Definition resolve (G : list string) (name : string) : result unit :=
  if bound G name then Ok tt else Err (NameError name).

(** ** Python and NumPy primitives *)

(** A Python [float]: an IEEE 754 binary64 number, that is 53 bits of
    precision and exponents below 1024; [S754_finite s m e] stands for
    (-1)^s * m * 2^e.  Operations round to nearest, ties to even. *)
Definition float : Type := spec_float.

Definition float_mul (x y : float) : float := SFmul 53 1024 x y.
Definition float_div (x y : float) : float := SFdiv 53 1024 x y.

Definition is_finite (x : float) : bool :=
  match x with
  | S754_zero _ | S754_finite _ _ _ => true
  | S754_infinity _ | S754_nan => false
  end.

Definition is_zero (x : float) : bool :=
  match x with
  | S754_zero _ => true
  | _ => false
  end.

(** The float nearest to an integer; infinite when the integer is beyond
    the largest float. *)
Definition to_float (z : Z) : float := binary_normalize 53 1024 z 0 false.

(** [float(z)], as done implicitly when an [int] meets a [float] in an
    arithmetic operation. *)
Definition float_of_int (z : Z) : result float :=
  if is_finite (to_float z) then Ok (to_float z)
  else Err (OverflowError "int too large to convert to float").

(** The float a decimal literal [n/d] denotes: the binary64 number nearest
    to the quotient (for [n] and [d] below 2^53 in magnitude, which
    [to_float] converts exactly). *)
Definition decimal (n : Z) (d : positive) : float :=
  float_div (to_float n) (to_float (Zpos d)).

(** The integer part of a finite float. *)
Definition truncate (x : float) : Z :=
  match x with
  | S754_finite s m e => cond_Zopp s (Z.shiftl (Zpos m) e)
  | _ => 0
  end.

(** [int(x)] on a float: truncation toward zero; NaN and the infinities
    have no integer part. *)
Definition py_int (x : float) : result Z :=
  match x with
  | S754_nan => Err (ValueError "cannot convert float NaN to integer")
  | S754_infinity _ =>
      Err (OverflowError "cannot convert float infinity to integer")
  | _ => Ok (truncate x)
  end.

(** A value that passes [isinstance(v, (float, int))]. *)
Inductive number : Type :=
| Int (z : Z)
| Float (x : float).

(** [v * y] for a float [y]: an [int] is converted first. *)
Definition mul_float (v : number) (y : float) : result float :=
  match v with
  | Int z => x <- float_of_int z ;; Ok (float_mul x y)
  | Float x => Ok (float_mul x y)
  end.

(** [z / y] for an [int] [z] and a float [y]. *)
Definition int_div_float (z : Z) (y : float) : result float :=
  x <- float_of_int z ;;
  if is_zero y then Err ZeroDivisionError else Ok (float_div x y).

(** A [dict] in iteration order. *)
Definition dict (V : Type) : Type := list (string * V).

Fixpoint dict_get {V : Type} (d : dict V) (k : string) : option V :=
  match d with
  | [] => None
  | (k', v) :: d' => if String.eqb k k' then Some v else dict_get d' k
  end.

Definition keys {V : Type} (d : dict V) : list string := map fst d.

(** [d[k]]: raises [KeyError] on a missing key. *)
Definition dict_item {V : Type} (d : dict V) (k : string) : result V :=
  match dict_get d k with
  | Some v => Ok v
  | None => Err (KeyError k)
  end.

(** [d[k] = v]. *)
Fixpoint dict_set {V : Type} (d : dict V) (k : string) (v : V) : dict V :=
  match d with
  | [] => [(k, v)]
  | (k', v') :: d' =>
      if String.eqb k k' then (k, v) :: d' else (k', v') :: dict_set d' k v
  end.

Definition in_keys (k : string) (ks : list string) : bool :=
  existsb (String.eqb k) ks.

(** 2-d arrays with their shape. *)
Record ndarray : Type := mk_ndarray {
  shape0 : nat;
  shape1 : nat;
  rows : list (list Q)
}.

Definition np_zeros (n : nat) : list Q := replicate n 0%Q.
Definition np_ones (n : nat) : list Q := replicate n 1%Q.

(** [np.zeros(n)] for a Python integer [n]. *)
Definition np_zeros_int (n : Z) : result (list Q) :=
  if n <? 0 then Err (ValueError "negative dimensions are not allowed")
  else Ok (np_zeros (Z.to_nat n)).

Definition is_nonzero (x : Q) : bool := negb (Qnum x =? 0).

Fixpoint nonzero_from (i : nat) (a : list Q) : list nat :=
  match a with
  | [] => []
  | x :: a' =>
      if is_nonzero x then i :: nonzero_from (S i) a'
      else nonzero_from (S i) a'
  end.

(** [np.nonzero(a)] for 1-d [a]: a tuple holding ONE index array (one per
    dimension of [a]). *)
Definition np_nonzero (a : list Q) : list (list nat) := [nonzero_from 0 a].

(** Normalisation of an integer index against an axis of length [n]:
    negative indices count from the end, anything outside [-n, n) raises. *)
Definition norm_index (n : nat) (i : Z) : result nat :=
  if (0 <=? i) && (i <? Z.of_nat n) then Ok (Z.to_nat i)
  else if (- Z.of_nat n <=? i) && (i <? 0) then Ok (Z.to_nat (i + Z.of_nat n))
  else Err (IndexError "index out of bounds").

(** [a[i] = v] for an integer [i]. *)
Definition setitem (a : list Q) (i : Z) (v : Q) : result (list Q) :=
  j <- norm_index (length a) i ;;
  Ok (<[j := v]> a).

(** [a[idx] = v] for an integer index array [idx]: every index is checked
    before anything is written. *)
Definition setitem_fancy (a : list Q) (idx : list Z) (v : Q) : result (list Q) :=
  js <- mapM (norm_index (length a)) idx ;;
  Ok (fold_left (fun acc j => <[j := v]> acc) js a).

(** [m.T] *)
Definition transpose (m : ndarray) : ndarray :=
  {| shape0 := shape1 m;
     shape1 := shape0 m;
     rows := map (fun j => map (fun r => nth j r 0%Q) (rows m))
                 (seq 0 (shape1 m)) |}.

(** [np.hstack(arrays)] for 2-d arrays. *)
Definition np_hstack (arrays : list ndarray) : result ndarray :=
  match arrays with
  | [] => Err (ValueError "need at least one array to concatenate")
  | a :: rest =>
      if forallb (fun b => Nat.eqb (shape0 b) (shape0 a)) rest then
        Ok {| shape0 := shape0 a;
              shape1 := list_sum (map shape1 arrays);
              rows := map (fun i => concat (map (fun b => nth i (rows b) []) arrays))
                          (seq 0 (shape0 a)) |}
      else Err (ValueError "all the input array dimensions except for the concatenation axis must match exactly")
  end.

(** [np.vstack((m, v))] for 2-d [m] and 1-d [v]. *)
Definition np_vstack (m : ndarray) (v : list Q) : result ndarray :=
  if Nat.eqb (length v) (shape1 m) then
    Ok {| shape0 := S (shape0 m); shape1 := shape1 m; rows := rows m ++ [v] |}
  else Err (ValueError "all the input array dimensions except for the concatenation axis must match exactly").

Fixpoint compress {A : Type} (mask : list bool) (l : list A) : list A :=
  match mask, l with
  | b :: mask', x :: l' => if b then x :: compress mask' l' else compress mask' l'
  | _, _ => []
  end.

Definition count_true (mask : list bool) : nat :=
  length (List.filter (fun b : bool => b) mask).

(** [m[:, mask]] for a boolean [mask]. *)
Definition select_columns (m : ndarray) (mask : list bool) : result ndarray :=
  if Nat.eqb (length mask) (shape1 m) then
    Ok {| shape0 := shape0 m;
          shape1 := count_true mask;
          rows := map (compress mask) (rows m) |}
  else Err (IndexError "boolean index did not match indexed array").

(** [m[:, a:b]] for [0 <= a <= b]. *)
Definition slice_columns (m : ndarray) (a b : nat) : ndarray :=
  {| shape0 := shape0 m;
     shape1 := Nat.min b (shape1 m) - a;
     rows := map (fun r => firstn (b - a) (skipn a r)) (rows m) |}.

(** [mask[t0:t1] = False] *)
Definition clear_range (mask : list bool) (t0 t1 : nat) : list bool :=
  imap (fun i b => if (t0 <=? i)%nat && (i <? t1)%nat then false else b) mask.

Fixpoint dotp (u v : list Q) : Q :=
  match u, v with
  | x :: u', y :: v' => (x * y + dotp u' v')%Q
  | _, _ => 0%Q
  end.

Definition column (j : nat) (m : list (list Q)) : list Q :=
  map (fun r => nth j r 0%Q) m.

Definition mat_mul (a b : ndarray) : list (list Q) :=
  map (fun r => map (fun j => Qred (dotp r (column j (rows b))))
                    (seq 0 (shape1 b)))
      (rows a).

(** [np.dot(a, b)] for 2-d arrays. *)
Definition np_dot (a b : ndarray) : result ndarray :=
  if Nat.eqb (shape1 a) (shape0 b) then
    Ok {| shape0 := shape0 a; shape1 := shape1 b; rows := mat_mul a b |}
  else Err (ValueError "shapes not aligned").

(** ** SciPy routines called by the function

    [scipy.linalg.toeplitz] and [scipy.linalg.inv] are library code; they
    are modelled after their documented behaviour.  [toeplitz] copies
    entries; [inv] is computed in exact arithmetic, where SciPy rounds. *)

(** [toeplitz(c, r)]: the matrix with first column [c] and first row [r]
    ([r[0]] is ignored): entry (i, j) is [c[i-j]] on and below the
    diagonal and [r[j-i]] above it. *)
Definition toeplitz (c r : list Q) : ndarray :=
  {| shape0 := length c;
     shape1 := length r;
     rows := map (fun i => map (fun j => if (j <=? i)%nat then nth (i - j) c 0%Q
                                         else nth (j - i) r 0%Q)
                               (seq 0 (length r)))
                 (seq 0 (length c)) |}.

Definition vscale (c : Q) (r : list Q) : list Q :=
  map (fun x => Qred (c * x)) r.

(** [s - c * r] *)
Definition vaxpy (c : Q) (r s : list Q) : list Q :=
  zip_with (fun x y => Qred (y - c * x)) r s.

(** First row with a nonzero entry in column [j], and the other rows. *)
Fixpoint find_pivot (j : nat) (rs : list (list Q)) : option (list Q * list (list Q)) :=
  match rs with
  | [] => None
  | r :: rs' =>
      if is_nonzero (nth j r 0%Q) then Some (r, rs')
      else match find_pivot j rs' with
           | Some (p, rest) => Some (p, r :: rest)
           | None => None
           end
  end.

(** Gauss-Jordan elimination on augmented rows, one column at a time:
    [done] holds the rows already carrying a unit pivot. *)
Fixpoint gauss_jordan (cols : list nat) (done todo : list (list Q))
  : option (list (list Q)) :=
  match cols with
  | [] => Some done
  | j :: cols' =>
      match find_pivot j todo with
      | None => None
      | Some (p, rest) =>
          let p' := vscale (/ nth j p 0%Q) p in
          let elim := fun r => vaxpy (nth j r 0%Q) p' r in
          gauss_jordan cols' (map elim done ++ [p']) (map elim rest)
      end
  end.

Definition unit_row (n i : nat) : list Q :=
  map (fun j => if Nat.eqb i j then 1%Q else 0%Q) (seq 0 n).

Definition augment (m : list (list Q)) (n : nat) : list (list Q) :=
  imap (fun i (r : list Q) => (r ++ unit_row n i)%list) m.

(** [inv(a)]: the inverse of a square matrix, by elimination in exact
    arithmetic; a singular matrix raises [LinAlgError].  SciPy factorises
    in binary64 and raises [LinAlgError] when a pivot is zero after
    rounding: on a singular matrix whose rounded pivots stay away from
    zero it returns.  The properties below use this definition for the
    shape of the result and on the concrete matrices of the scenarios;
    none is derived from what it does on singular matrices in general. *)
Definition inv (a : ndarray) : result ndarray :=
  if negb (Nat.eqb (shape0 a) (shape1 a)) then
    Err (ValueError "expected square matrix")
  else
    match gauss_jordan (seq 0 (shape0 a)) [] (augment (rows a) (shape0 a)) with
    | None => Err (LinAlgError "singular matrix")
    | Some rs =>
        Ok {| shape0 := shape0 a; shape1 := shape0 a;
              rows := map (skipn (shape0 a)) rs |}
    end.

(** ** Inputs and outputs of [regress_continuous] *)

(** [raw]: the sampling rate of [raw.info] and the channel x sample data
    returned by [raw[:]]. *)
Record Raw : Type := mk_Raw {
  info_sfreq : float;
  raw_data : ndarray
}.

(** [data, times = raw[:]]: one time stamp per sample. *)
Definition raw_getitem (raw : Raw) : ndarray * list float :=
  (raw_data raw,
   map (fun i => float_div (to_float (Z.of_nat i)) (info_sfreq raw))
       (seq 0 (shape1 (raw_data raw)))).

(** One row of [events]: (sample, previous value, event code). *)
Definition event : Type := (Z * Z * Z)%type.

(** A value of [event_id]: one integer code or a list of codes. *)
Inductive codes : Type :=
| Code (c : Z)
| CodeList (cs : list Z).

(** [tmin] / [tmax]: a number of seconds, a dict from condition to seconds
    (a value may be [None]), or [None]. *)
Inductive window_spec : Type :=
| Seconds (s : number)
| PerCondition (d : dict (option number))
| NoWindow.

(** [reject]: [None], a non-dict flag, or a dict of thresholds. *)
Inductive reject_spec : Type :=
| RejectNone
| RejectFlag (b : bool)
| RejectDict (d : dict Q).

(** The value built by [EvokedArray(data, info, tmin, comment=, nave=,
    kind=)]. *)
Record EvokedArray : Type := mk_EvokedArray {
  ev_data : ndarray;
  ev_sfreq : float;
  ev_tmin : float;
  ev_comment : string;
  ev_nave : nat;
  ev_kind : string
}.

(** ** The function, stage by stage *)

(** The defaults [-.1] and [1] of lines 210 and 214. *)
Definition default_tmin : number := Float (decimal (-1) 10).
Definition default_tmax : number := Int 1.

(** [int(v * sfreq)] *)
Definition to_samples (v : number) (sfreq : float) : result Z :=
  p <- mul_float v sfreq ;; py_int p.

(** [int(spec.get(cond, default) * sfreq)] *)
Definition window_get (d : dict (option number)) (cond : string)
    (default : number) (sfreq : float) : result Z :=
  match dict_get d cond with
  | None => to_samples default sfreq
  | Some (Some s) => to_samples s sfreq
  | Some None =>
      Err (TypeError "unsupported operand type(s) for *: 'NoneType' and 'float'")
  end.

(** One of the two blocks of lines 207-214: a number of seconds gives a
    comprehension over [scalar_over], anything else is asked [.get] in a
    comprehension over [dict_over]. *)
Definition resolve_window (spec : window_spec) (default : number)
    (sfreq : float) (scalar_over dict_over : list string) : result (dict Z) :=
  match spec with
  | Seconds s =>
      mapM (fun cond => v <- to_samples s sfreq ;; Ok (cond, v)) scalar_over
  | PerCondition d =>
      mapM (fun cond => v <- window_get d cond default sfreq ;; Ok (cond, v))
           dict_over
  | NoWindow =>
      mapM (fun cond : string =>
              Err (AttributeError "'NoneType' object has no attribute 'get'"))
           dict_over
  end.

(** Lines 207-214: a scalar [tmin] is spread over [conds], a scalar [tmax]
    over [event_id.keys()]; the dict forms both range over [conds]. *)
Definition resolve_windows (tmin tmax : window_spec) (sfreq : float)
    (conds event_keys : list string) : result (dict Z * dict Z) :=
  tmin' <- resolve_window tmin default_tmin sfreq conds conds ;;
  tmax' <- resolve_window tmax default_tmax sfreq event_keys conds ;;
  Ok (tmin', tmax').

Definition code_in (e : Z) (ids : list Z) : bool := existsb (Z.eqb e) ids.

(** Line 230-231: [[event_id[cond]] if isinstance(event_id[cond], int) else
    event_id[cond]] *)
Definition ids_of (c : codes) : list Z :=
  match c with
  | Code i => [i]
  | CodeList l => l
  end.

(** [[t for t, _, e in events if e in ids]] *)
Fixpoint onsets_of (ids : list Z) (events : list event) : list Z :=
  match events with
  | [] => []
  | (t, _, e) :: events' =>
      if code_in e ids then t :: onsets_of ids events' else onsets_of ids events'
  end.

Definition newline : string := String (Ascii.ascii_of_nat 10) EmptyString.

(** The message of lines 236-237, with the condition formatted in. *)
Definition covariate_error (cond : string) : string :=
  String.concat ""
    [ "Condition "; cond; " from ```covariates``` is"; newline;
      "                        not the same length as ```events```" ].

(** Lines 239-240: one indexed write per (event, covariate value) pair. *)
Fixpoint assign_covariate (samples : list Q) (txs : list Z) (vs : list Q)
    (tmin_ : Z) : result (list Q) :=
  match txs, vs with
  | tx :: txs', v :: vs' =>
      samples' <- setitem samples (tx + tmin_) v ;;
      assign_covariate samples' txs' vs' tmin_
  | _, _ => Ok samples
  end.

(** Lines 228-240: the indicator vector [samples] of one condition.  For a
    binary condition without events the index [np.asarray([]) + tmin_] is
    an empty array of floats, which NumPy refuses as an index. *)
Definition fill_samples (T : nat) (events : list event) (event_id : dict codes)
    (covariates : option (dict (list Q))) (cond : string) (tmin_ : Z)
  : result (list Q) :=
  let samples := np_zeros T in
  if in_keys cond (keys event_id) then
    c <- dict_item event_id cond ;;
    let ids := ids_of c in
    match onsets_of ids events with
    | [] =>
        Err (IndexError
               "arrays used as indices must be of integer (or boolean) type")
    | onsets => setitem_fancy samples (map (fun t => t + tmin_) onsets) 1%Q
    end
  else
    cov <- match covariates with
           | None => Err (TypeError "'NoneType' object is not subscriptable")
           | Some d => dict_item d cond
           end ;;
    if negb (Nat.eqb (length cov) (length events)) then
      Err (ValueError (covariate_error cond))
    else
      assign_covariate samples (map (fun ev : event => fst (fst ev)) events) cov tmin_.

(** Line 249: [len(np.nonzero(line)[0]) > 0] *)
Definition line_has_val (line : list Q) : bool :=
  (0 <? length (nth 0 (np_nonzero line) []))%nat.

Definition default_reject : dict Q :=
  [ ("grad", 4000e-12%Q); ("mag", 4e-11%Q); ("eeg", 40e-5%Q); ("eog", 250e-5%Q) ].

(** Lines 253-262: the thresholds and window length in force after the
    [if reject is not None] block; [None] when the block was skipped, in
    which case the local name [_reject_data_segments] was never bound. *)
Definition rejection_setup (reject : reject_spec) (tstep : option Q)
  : option (dict Q * Q) :=
  match reject with
  | RejectNone => None
  | RejectFlag _ => Some (default_reject, default 1%Q tstep)
  | RejectDict d => Some (d, default 1%Q tstep)
  end.

Section Pipeline.

(** [mne.utils._reject_data_segments], reduced to what the function uses
    of it: the list of (start, stop) sample ranges to exclude. *)
Variable _reject_data_segments : ndarray -> dict Q -> Q -> list (nat * nat).

(** Names bound in the module namespace besides the module's own. *)
Variable extra : list string.

(** Lines 224-245: one pass of the predictor loop; returns the value
    stored in [cond_length] and the block appended to [pred_arrays]. *)
Definition build_predictor (T : nat) (events : list event)
    (event_id : dict codes) (covariates : option (dict (list Q)))
    (tmin tmax : dict Z) (cond : string) : result (nat * ndarray) :=
  tmin_ <- dict_item tmin cond ;;
  tmax_ <- dict_item tmax cond ;;
  let n_lags := tmax_ - tmin_ in
  lags <- np_zeros_int n_lags ;;
  samples <- fill_samples T events event_id covariates cond tmin_ ;;
  let n := length (np_nonzero samples) in
  _ <- resolve (namespace extra) "scipy" ;;
  Ok (n, toeplitz samples lags).

(** Lines 223-245. *)
Fixpoint build_predictors (T : nat) (events : list event)
    (event_id : dict codes) (covariates : option (dict (list Q)))
    (tmin tmax : dict Z) (conds : list string)
    (cond_length : dict nat) (pred_arrays : list ndarray)
  : result (dict nat * list ndarray) :=
  match conds with
  | [] => Ok (cond_length, pred_arrays)
  | cond :: conds' =>
      r <- build_predictor T events event_id covariates tmin tmax cond ;;
      build_predictors T events event_id covariates tmin tmax conds'
        (dict_set cond_length cond (fst r)) (pred_arrays ++ [snd r])
  end.

(** Lines 264-267: the call through the local name, then the ranges are
    cleared in [has_val]. *)
Definition apply_rejection (data : ndarray) (reject : reject_spec)
    (tstep : option Q) (has_val : list bool) : result (list bool) :=
  match rejection_setup reject tstep with
  | None => Err (UnboundLocalError "_reject_data_segments")
  | Some (thresholds, tstep') =>
      let inds := _reject_data_segments data thresholds tstep' in
      Ok (fold_left (fun hv r => clear_range hv (fst r) (snd r)) inds has_val)
  end.

(** Lines 275-276. *)
Definition solve (X Y : ndarray) : result ndarray :=
  _ <- resolve (namespace extra) "scipy" ;;
  xtx <- np_dot (transpose X) X ;;
  xtx_inv <- inv xtx ;;
  xty <- np_dot (transpose X) (transpose Y) ;;
  b <- np_dot xtx_inv xty ;;
  Ok (transpose b).

(** Lines 281-287. *)
Fixpoint build_evoked (conds : list string) (tmin tmax : dict Z)
    (cond_length : dict nat) (coefs : ndarray) (sfreq : float) (cum : Z)
    (ev_dict : dict EvokedArray) : result (dict EvokedArray) :=
  match conds with
  | [] => Ok ev_dict
  | cond :: conds' =>
      tmin_ <- dict_item tmin cond ;;
      tmax_ <- dict_item tmax cond ;;
      _ <- resolve (namespace extra) "mne" ;;
      let block := slice_columns coefs (Z.to_nat cum)
                                 (Z.to_nat (cum + tmax_ - tmin_)) in
      first <- int_div_float tmin_ sfreq ;;
      nave <- dict_item cond_length cond ;;
      build_evoked conds' tmin tmax cond_length coefs sfreq
        (cum + tmax_ - tmin_)
        (dict_set ev_dict cond
           (mk_EvokedArray block sfreq first cond nave "mean"))
  end.

Definition regress_continuous (raw : Raw) (events : list event)
    (event_id : option (dict codes)) (tmin tmax : window_spec)
    (covariates : option (dict (list Q))) (reject : reject_spec)
    (tstep : option Q) : result (dict EvokedArray) :=
  let sfreq := info_sfreq raw in
  let data := fst (raw_getitem raw) in
  let times := snd (raw_getitem raw) in
  event_id' <- match event_id with
               | None => Err (AttributeError "'NoneType' object has no attribute 'keys'")
               | Some d => Ok d
               end ;;
  let conds := (keys event_id'
                ++ match covariates with
                   | None => []
                   | Some c => keys c
                   end)%list in
  w <- resolve_windows tmin tmax sfreq conds (keys event_id') ;;
  let tmin' := fst w in
  let tmax' := snd w in
  p <- build_predictors (length times) events event_id' covariates
         tmin' tmax' conds [] [] ;;
  let cond_length := fst p in
  let pred_arrays := snd p in
  stacked <- np_hstack pred_arrays ;;
  let big_arr := transpose stacked in
  let has_val := map line_has_val (rows (transpose big_arr)) in
  has_val' <- apply_rejection data reject tstep has_val ;;
  X0 <- select_columns big_arr has_val' ;;
  X1 <- np_vstack X0 (np_ones (shape1 X0)) ;;
  let X := transpose X1 in
  Y <- select_columns data has_val' ;;
  coefs <- solve X Y ;;
  build_evoked conds tmin' tmax' cond_length coefs sfreq 0 [].

End Pipeline.

(** ** Reference notions and concrete inputs *)

(** Follows the spec's words (section 8, non-overlap reduction): the simple
    time-locked average over a condition's events, i.e. for each channel
    and each lag the mean of the signal at onset + tmin_samples + lag. *)
Definition time_locked_average (data : ndarray) (onsets : list Z)
    (tmin_ tmax_ : Z) : list (list Q) :=
  map (fun row : list Q =>
         map (fun l =>
                Qred (fold_right Qplus 0%Q
                        (map (fun t => nth (Z.to_nat (t + tmin_ + Z.of_nat l)) row 0%Q)
                             onsets)
                      / inject_Z (Z.of_nat (length onsets))))
             (seq 0 (Z.to_nat (tmax_ - tmin_))))
      (rows data).

(** [floor(x)], the rounding the spec names for window resolution. *)
Definition floor_int (x : Q) : Z := Qfloor x.

(** The rational a finite float stands for. *)
Definition float_value (x : float) : Q :=
  match x with
  | S754_finite s m e =>
      let v := match e with
               | Zneg p => Qmake (Zpos m) (2 ^ p)%positive
               | _ => inject_Z (Zpos m * 2 ^ e)
               end in
      if s then Qopp v else v
  | _ => 0%Q
  end.

(** The float operand of the product [v * sfreq]. *)
Definition as_float (v : number) : float :=
  match v with
  | Int z => to_float z
  | Float x => x
  end.

(** The binary64 product [v * sfreq]. *)
Definition product (v : number) (sfreq : float) : float :=
  float_mul (as_float v) sfreq.

(** Index reached by a write at offset [o] on an axis of length [T]. *)
Definition wrapped (T : nat) (o : Z) : nat :=
  if o <? 0 then Z.to_nat (o + Z.of_nat T) else Z.to_nat o.

(** Offsets a write on an axis of length [T] accepts. *)
Definition in_range (T : nat) (o : Z) : Prop :=
  - Z.of_nat T <= o < Z.of_nat T.

(** An array whose rows agree with its shape. *)
Definition well_formed (m : ndarray) : Prop :=
  length (rows m) = shape0 m /\
  Forall (fun r : list Q => length r = shape1 m) (rows m).

(** The seconds value a window spec gives a condition. *)
Definition seconds_for (spec : window_spec) (cond : string) (default : number)
  : number :=
  match spec with
  | Seconds s => s
  | PerCondition d =>
      match dict_get d cond with
      | Some (Some s) => s
      | _ => default
      end
  | NoWindow => default
  end.

(** The number of samples a condition's bound comes to: the integer part of
    the binary64 product. *)
Definition samples_for (spec : window_spec) (cond : string) (default : number)
    (sfreq : float) : Z :=
  truncate (product (seconds_for spec cond default) sfreq).

(** Window specs made of numbers only. *)
Definition numeric (spec : window_spec) : Prop :=
  match spec with
  | Seconds _ => True
  | PerCondition d =>
      Forall (fun kv : string * option number => snd kv <> None) d
  | NoWindow => False
  end.

(** Window specs made of numbers only, whose products with the sampling
    rate are finite for the conditions of [conds]. *)
Definition resolvable (spec : window_spec) (default : number) (sfreq : float)
    (conds : list string) : Prop :=
  numeric spec /\
  forall cond, In cond conds ->
    is_finite (product (seconds_for spec cond default) sfreq) = true.

Module Scenario.

(** A detector that flags nothing. *)
Definition no_segments : ndarray -> dict Q -> Q -> list (nat * nat) :=
  fun _ _ _ => [].

(** The two names the function reads and the module does not bind. *)
Definition repaired : list string := ["scipy"; "mne"].

(** Noise-free data: the kernel (3, 7) after each of two events of one
    condition, windows of two samples that do not overlap. *)
Definition kernel_raw : Raw :=
  mk_Raw (to_float 1) (mk_ndarray 1 8 [[0; 3; 7; 0; 0; 3; 7; 0]%Q]).
Definition kernel_events : list event := [(1, 0, 1); (5, 0, 1)].
Definition kernel_event_id : dict codes := [("a", Code 1)].

(** Section 8 of the spec: 100 Hz, one condition with events at samples
    100, 500 and 900, window [-0.1 s, 0.5 s). *)
Definition trial_raw : Raw :=
  mk_Raw (to_float 100) (mk_ndarray 1 1000 [repeat 0%Q 1000]).
Definition trial_events : list event :=
  [(100, 0, 1); (500, 0, 1); (900, 0, 1)].
Definition trial_event_id : dict codes := [("a", Code 1)].

(** The target of the kernel data on the four retained samples. *)
Definition kernel_Y : ndarray := mk_ndarray 1 4 [[3; 7; 3; 7]%Q].

(** A continuous condition: covariate values 2, 3, 5 at three events,
    the signal being the value times the kernel (1, 2). *)
Definition slope_raw : Raw :=
  mk_Raw (to_float 1) (mk_ndarray 1 12 [[0; 2; 4; 0; 0; 3; 6; 0; 0; 0; 5; 10]%Q]).
Definition slope_events : list event := [(1, 0, 1); (5, 0, 1); (10, 0, 1)].
Definition slope_covariates : dict (list Q) := [("c", [2; 3; 5]%Q)].

(** Ten events and a covariate of five values. *)
Definition short_raw : Raw :=
  mk_Raw (to_float 10) (mk_ndarray 1 120 [repeat 0%Q 120]).
Definition short_events : list event :=
  map (fun k => (Z.of_nat k * 10, 0, 1)) (seq 1 10).
Definition short_event_id : dict codes := [("a", Code 1)].
Definition short_covariates : dict (list Q) := [("c", [1; 2; 3; 4; 5]%Q)].

End Scenario.

(** ** [linear_regression] and [_fit_lm] (lines 21-136)

    The numerical part of [_fit_lm] (least squares, square roots, the
    Student t distribution: lines 119-136) is floating-point library code
    and enters as a parameter, as does NumPy's broadcasting assignment
    [a[:] = value]; the argument handling around them is modelled as
    written. *)

(** The exceptions above, and the two others these functions can raise. *)
Inductive py_exn : Type :=
| Exn (e : exn)
| StopIteration
| RuntimeError (msg : string).

Inductive outcome (A : Type) : Type :=
| Returned (a : A)
| Raised (e : py_exn).

Arguments Returned {A} a.
Arguments Raised {A} e.

Definition and_then {A B : Type} (m : outcome A) (k : A -> outcome B) : outcome B :=
  match m with
  | Returned a => k a
  | Raised e => Raised e
  end.

Notation "x <-- m ;; k" := (and_then m (fun x => k))
  (at level 62, m at next level, right associativity).

Definition lift {A : Type} (r : result A) : outcome A :=
  match r with
  | Ok a => Returned a
  | Err e => Raised (Exn e)
  end.

(** An n-d array: its shape and its entries in C order. *)
Record tensor : Type := mk_tensor {
  t_shape : list nat;
  t_flat : list Q
}.

(** [len(a)] *)
Definition tensor_len (a : tensor) : result nat :=
  match t_shape a with
  | [] => Err (TypeError "len() of unsized object")
  | n :: _ => Ok n
  end.

(** [a.shape[1]] *)
Definition shape_1 (a : tensor) : result nat :=
  match t_shape a with
  | _ :: n :: _ => Ok n
  | _ => Err (IndexError "tuple index out of range")
  end.

(** ['x%i' % i] *)
Definition format_x (i : nat) : string :=
  "x" ++ NilEmpty.string_of_uint (Nat.to_uint i).

(** Line 59: [['x%i' % i for i in range(design_matrix.shape[1])]] *)
Definition default_names (design_matrix : tensor) : result (list string) :=
  n <- shape_1 design_matrix ;;
  Ok (map format_x (seq 0 n)).

(** [np.zeros(shape)] *)
Definition zeros_of_shape (shape : list nat) : tensor :=
  {| t_shape := shape; t_flat := replicate (fold_right Nat.mul 1%nat shape) 0%Q |}.

(** [np.array(arrays)] for arrays of one shape: a new leading axis. *)
Definition np_array (arrays : list tensor) : tensor :=
  {| t_shape := length arrays
                :: match arrays with
                   | [] => []
                   | a :: _ => t_shape a
                   end;
     t_flat := concat (map t_flat arrays) |}.

(** The objects the function handles: source estimates, evoked responses,
    and any other object with a [data] attribute and a [copy] method. *)
Inductive container : Type :=
| SourceEstimate (data : tensor)
| Evoked (data : tensor)
| OtherObject (data : tensor).

Definition data_of (c : container) : tensor :=
  match c with
  | SourceEstimate d => d
  | Evoked d => d
  | OtherObject d => d
  end.

(** An [Epochs] instance: [get_data()], [ch_names], the names of the
    channels [pick_types] selects, and [tmin]. *)
Record Epochs : Type := mk_Epochs {
  ep_data : tensor;
  ep_ch_names : list string;
  ep_picked : list string;
  ep_tmin : Q
}.

(** The first argument: an [Epochs] instance, a generator, a list, or
    anything else. *)
Inductive instance : Type :=
| EpochsInstance (ep : Epochs)
| GeneratorInstance (items : list container)
| ListInstance (items : list container)
| OtherInstance.

(** Lines 65-67: whether the [UserWarning] is issued. *)
Definition warns_bad_channels (inst : instance) : bool :=
  match inst with
  | EpochsInstance ep =>
      negb (if List.list_eq_dec string_dec (ep_picked ep) (ep_ch_names ep)
            then true else false)
  | _ => false
  end.

(** Lines 61-81: the template [out] and the stacked [data]. *)
Definition collect (inst : instance) : outcome (container * tensor) :=
  match inst with
  | EpochsInstance ep =>
      Returned (Evoked (zeros_of_shape (tl (t_shape (ep_data ep)))), ep_data ep)
  | GeneratorInstance items =>
      match items with
      | [] => Raised StopIteration
      | out :: rest => Returned (out, np_array (data_of out :: map data_of rest))
      end
  | ListInstance items =>
      match items with
      | [] => Raised (Exn (IndexError "list index out of range"))
      | SourceEstimate d :: _ =>
          Returned (SourceEstimate d, np_array (map data_of items))
      | _ :: _ =>
          Raised (Exn (ValueError "Input must be epochs or iterable of source estimates"))
      end
  | OtherInstance =>
      Raised (Exn (ValueError "Input must be epochs or iterable of source estimates"))
  end.

(** The five dicts [_fit_lm] returns. *)
Record lm_params : Type := mk_lm_params {
  p_beta : dict tensor;
  p_stderr : dict tensor;
  p_t_val : dict tensor;
  p_p_val : dict tensor;
  p_mlog10_p_val : dict tensor
}.

(** The namedtuple [lm]. *)
Record lm : Type := mk_lm {
  beta : container;
  stderr : container;
  t_val : container;
  p_val : container;
  mlog10_p_val : container
}.

Section LinearRegression.

(** Lines 119-136 of [_fit_lm]. *)
Variable fit_kernel : tensor -> tensor -> list string -> outcome lm_params.

(** [a[:] = value] *)
Variable assign : tensor -> tensor -> outcome tensor.

(** Lines 103-136. *)
Definition _fit_lm (data design_matrix : tensor) (names : list string)
  : outcome lm_params :=
  n_samples <-- lift (tensor_len data) ;;
  match t_shape design_matrix with
  | [n_rows; n_predictors] =>
      if negb (Nat.eqb n_samples n_rows) then
        Raised (Exn (ValueError "Number of rows in design matrix must be equal to number of observations"))
      else if negb (Nat.eqb n_predictors (length names)) then
        Raised (Exn (ValueError "Number of regressor names must be equal to number of column in design matrix"))
      else fit_kernel data design_matrix names
  | _ => Raised (Exn (ValueError "Design matrix must be a 2d array"))
  end.

(** Lines 90-97: a copy of the template holding [value]. *)
Definition fill (out : container) (value : tensor) : outcome container :=
  match out with
  | SourceEstimate d => d' <-- assign d value ;; Returned (SourceEstimate d')
  | Evoked d => d' <-- assign d value ;; Returned (Evoked d')
  | OtherObject _ => Raised (RuntimeError "Invalid container.")
  end.

(** Lines 88-98 for one name. *)
Definition fit_of (out : container) (params : lm_params) (name : string)
  : outcome lm :=
  b <-- lift (dict_item (p_beta params) name) ;;
  s <-- lift (dict_item (p_stderr params) name) ;;
  t <-- lift (dict_item (p_t_val params) name) ;;
  p <-- lift (dict_item (p_p_val params) name) ;;
  m <-- lift (dict_item (p_mlog10_p_val params) name) ;;
  b' <-- fill out b ;;
  s' <-- fill out s ;;
  t' <-- fill out t ;;
  p' <-- fill out p ;;
  m' <-- fill out m ;;
  Returned (mk_lm b' s' t' p' m').

(** Lines 86-98. *)
Fixpoint fit_all (out : container) (params : lm_params) (names : list string)
    (lm_fits : dict lm) : outcome (dict lm) :=
  match names with
  | [] => Returned lm_fits
  | name :: names' =>
      fit <-- fit_of out params name ;;
      fit_all out params names' (dict_set lm_fits name fit)
  end.

(** Lines 21-100. *)
Definition linear_regression (inst : instance) (design_matrix : tensor)
    (names : option (list string)) : outcome (dict lm) :=
  names' <-- match names with
             | None => lift (default_names design_matrix)
             | Some l => Returned l
             end ;;
  c <-- collect inst ;;
  lm_params <-- _fit_lm (snd c) design_matrix names' ;;
  fit_all (fst c) lm_params names' [].

End LinearRegression.

(** Two containers of one class (source estimate or evoked response). *)
Definition same_kind (a b : container) : Prop :=
  match a, b with
  | SourceEstimate _, SourceEstimate _ => True
  | Evoked _, Evoked _ => True
  | _, _ => False
  end.

(** ** Quantities the stage properties speak about *)

(** Width of a condition's window in samples, as line 225 computes it. *)
Definition n_lags_of (tmin tmax : dict Z) (cond : string) : Z :=
  match dict_get tmin cond, dict_get tmax cond with
  | Some a, Some b => b - a
  | _, _ => 0
  end.

(** Value of [cum] after the conditions [conds] (line 287). *)
Definition total_lags (tmin tmax : dict Z) (conds : list string) : Z :=
  fold_right (fun c acc => n_lags_of tmin tmax c + acc) 0 conds.

(** Shape facts a block of a returning pass satisfies. *)
Definition block_of (T : nat) (tmin tmax : dict Z) (cond : string)
    (blk : ndarray) : Prop :=
  well_formed blk /\ shape0 blk = T /\
  0 <= n_lags_of tmin tmax cond /\
  shape1 blk = Z.to_nat (n_lags_of tmin tmax cond).

(** The list [conds] of lines 203-205. *)
Definition conds_of (event_id : dict codes)
    (covariates : option (dict (list Q))) : list string :=
  (keys event_id
   ++ match covariates with
      | None => []
      | Some c => keys c
      end)%list.

(** [t0 <= i < t1], membership of a sample in an excluded range. *)
Definition in_segment (i : nat) (r : nat * nat) : bool :=
  (fst r <=? i)%nat && (i <? snd r)%nat.

(** * Properties *)

(** ** Generic facts about the error monad and name resolution *)

Lemma raises_err {A : Type} (e : exn) : raises (@Err A e).
Proof. exists e. reflexivity. Qed.

Lemma raises_bind_l {A B : Type} (m : result A) (k : A -> result B) :
  raises m -> raises (bind m k).
Proof. intros [e ->]. exists e. reflexivity. Qed.

Lemma raises_bind_r {A B : Type} (m : result A) (k : A -> result B) :
  (forall a, m = Ok a -> raises (k a)) -> raises (bind m k).
Proof.
  intros H. destruct m as [a|e]; cbn.
  - apply H. reflexivity.
  - apply raises_err.
Qed.

(** Peel one [bind] off a goal [raises _]: the error branch is immediate. *)
Ltac raise_step :=
  cbv zeta;
  lazymatch goal with
  | |- raises (bind _ _) => apply raises_bind_r; intros ? ?
  | |- raises (Err _) => apply raises_err
  end.

Lemma module_binds_np_linalg_only :
  bound module_globals "np" = true /\
  bound module_globals "linalg" = true /\
  bound module_globals "scipy" = false /\
  bound module_globals "mne" = false.
Proof. repeat split; reflexivity. Qed.

Lemma resolve_scipy_module :
  resolve (namespace []) "scipy" = Err (NameError "scipy").
Proof. reflexivity. Qed.

Lemma resolve_bound (extra : list string) (name : string) :
  bound (namespace extra) name = true -> resolve (namespace extra) name = Ok tt.
Proof. unfold resolve. intros ->. reflexivity. Qed.

(** ** The predictor loop under the module's own namespace *)

Lemma build_predictor_module_raises T events event_id covariates tmin tmax cond :
  raises (build_predictor [] T events event_id covariates tmin tmax cond).
Proof.
  unfold build_predictor.
  do 4 raise_step. rewrite resolve_scipy_module. apply raises_err.
Qed.

Lemma build_predictors_module_raises T events event_id covariates tmin tmax
    cond conds cl pa :
  raises (build_predictors [] T events event_id covariates tmin tmax
            (cond :: conds) cl pa).
Proof.
  cbn [build_predictors]. apply raises_bind_l, build_predictor_module_raises.
Qed.

Lemma regress_continuous_module_raises detect raw events event_id tmin tmax
    covariates reject tstep :
  raises (regress_continuous detect [] raw events event_id tmin tmax
            covariates reject tstep).
Proof.
  unfold regress_continuous. cbv zeta.
  raise_step. raise_step.
  match goal with
  | |- raises (bind (build_predictors _ _ _ _ _ _ _ ?cs _ _) _) =>
      destruct cs as [|cond conds]
  end.
  - cbn [build_predictors bind fst snd np_hstack]. raise_step.
  - apply raises_bind_l, build_predictors_module_raises.
Qed.

(** ** Each unbound name is enough *)

Lemma build_predictor_needs_scipy extra T events event_id covariates tmin tmax cond :
  bound (namespace extra) "scipy" = false ->
  raises (build_predictor extra T events event_id covariates tmin tmax cond).
Proof.
  intros Hs. unfold build_predictor, resolve. rewrite Hs.
  do 4 raise_step. apply raises_err.
Qed.

Lemma build_evoked_needs_mne extra cond conds tmin tmax cond_length coefs sfreq
    cum ev_dict :
  bound (namespace extra) "mne" = false ->
  raises (build_evoked extra (cond :: conds) tmin tmax cond_length coefs sfreq
            cum ev_dict).
Proof.
  intros Hm. cbn [build_evoked]. unfold resolve. rewrite Hm.
  do 2 raise_step. apply raises_err.
Qed.

(** Without [scipy], or without [mne], no call returns: an empty condition
    list fails at [np.hstack], a non-empty one at the first unbound name. *)
Lemma regress_continuous_needs_both detect extra raw events event_id tmin tmax
    covariates reject tstep :
  bound (namespace extra) "scipy" = false \/
  bound (namespace extra) "mne" = false ->
  raises (regress_continuous detect extra raw events event_id tmin tmax
            covariates reject tstep).
Proof.
  intros Hmissing. unfold regress_continuous. cbv zeta.
  raise_step. raise_step.
  match goal with
  | |- raises (bind (build_predictors _ _ _ _ _ _ _ ?cs _ _) _) =>
      destruct cs as [|cond conds]
  end.
  - cbn [build_predictors bind fst snd np_hstack]. raise_step.
  - destruct Hmissing as [Hs|Hm].
    + apply raises_bind_l. cbn [build_predictors].
      apply raises_bind_l, build_predictor_needs_scipy, Hs.
    + do 7 raise_step. apply build_evoked_needs_mne, Hm.
Qed.

(** C1. Under the module's own bindings ([np] and [linalg] are bound,
    [scipy] and [mne] are not) every call of [regress_continuous] raises an
    exception: no input yields the documented mapping from conditions to
    responses.  Binding only one of the two missing names changes
    nothing. *)
Theorem regress_continuous_never_returns :
  bound module_globals "np" = true /\
  bound module_globals "linalg" = true /\
  bound module_globals "scipy" = false /\
  bound module_globals "mne" = false /\
  (forall detect raw events event_id tmin tmax covariates reject tstep,
      raises (regress_continuous detect [] raw events event_id tmin tmax
                covariates reject tstep)) /\
  (forall detect raw events event_id tmin tmax covariates reject tstep,
      raises (regress_continuous detect ["scipy"] raw events event_id tmin tmax
                covariates reject tstep)) /\
  (forall detect raw events event_id tmin tmax covariates reject tstep,
      raises (regress_continuous detect ["mne"] raw events event_id tmin tmax
                covariates reject tstep)).
Proof.
  destruct module_binds_np_linalg_only as (Hnp & Hl & Hs & Hm).
  repeat split; try assumption; intros.
  - apply regress_continuous_module_raises.
  - apply regress_continuous_needs_both. right. reflexivity.
  - apply regress_continuous_needs_both. left. reflexivity.
Qed.

(** ** Trial count *)

Lemma np_nonzero_length (a : list Q) : length (np_nonzero a) = 1%nat.
Proof. reflexivity. Qed.

(** The value stored in [cond_length] is the length of the tuple returned
    by [np.nonzero], whatever the indicator vector holds. *)
Lemma cond_length_always_one extra T events event_id covariates tmin tmax cond n b :
  build_predictor extra T events event_id covariates tmin tmax cond = Ok (n, b) ->
  n = 1%nat.
Proof.
  unfold build_predictor, bind. intros H.
  repeat match type of H with
         | match ?m with _ => _ end = _ => destruct m; try discriminate
         end.
  inversion H. reflexivity.
Qed.

(** C3. On the scenario of section 8 (events at samples 100, 500, 900) the
    indicator vector has three nonzero entries, yet the trial count the
    predictor loop stores is 1, and the call itself raises [NameError];
    where a call does return (continuous condition, [scipy] and [mne]
    bound) the response carries trial count 1 for three contributing
    events. *)
Theorem trial_count_is_tuple_length :
  resolve_windows (Seconds (Float (decimal (-1) 10)))
    (Seconds (Float (decimal 1 2))) (to_float 100) ["a"] ["a"]
    = Ok ([("a", -10)], [("a", 50)]) /\
  (exists samples,
      fill_samples 1000 Scenario.trial_events Scenario.trial_event_id None "a" (-10)
        = Ok samples /\
      nonzero_from 0 samples = [90; 490; 890]%nat /\
      length (np_nonzero samples) = 1%nat) /\
  (exists block,
      build_predictor Scenario.repaired 1000 Scenario.trial_events
        Scenario.trial_event_id None [("a", -10)] [("a", 50)] "a" = Ok (1%nat, block)) /\
  regress_continuous Scenario.no_segments [] Scenario.trial_raw
    Scenario.trial_events (Some Scenario.trial_event_id)
    (Seconds (Float (decimal (-1) 10))) (Seconds (Float (decimal 1 2))) None
    (RejectFlag true) None
    = Err (NameError "scipy") /\
  (exists ev,
      regress_continuous Scenario.no_segments Scenario.repaired Scenario.slope_raw
        Scenario.slope_events (Some []) (Seconds (Int 0))
        (PerCondition [("c", Some (Int 2))])
        (Some Scenario.slope_covariates) (RejectFlag true) None
        = Ok [("c", ev)] /\
      ev_nave ev = 1%nat /\
      rows (ev_data ev) = [[1; 2]%Q]).
Proof.
  split; [vm_compute; reflexivity|].
  split; [eexists; split; [vm_compute; reflexivity|split; vm_compute; reflexivity]|].
  split; [eexists; vm_compute; reflexivity|].
  split; [vm_compute; reflexivity|].
  eexists; split; [vm_compute; reflexivity|split; reflexivity].
Qed.

(** ** Non-overlap reduction *)

(** C2. Noise-free data carrying the kernel (3, 7) after each of two
    events whose windows do not overlap: the time-locked average is (3, 7),
    but the call raises [NameError] instead of returning it; with [scipy]
    and [mne] bound it still returns nothing, the intercept column being
    the sum of the lag columns on the retained rows. *)
Theorem nonoverlap_call_returns_no_average :
  time_locked_average (raw_data Scenario.kernel_raw) [1; 5] 0 2 = [[3; 7]%Q] /\
  regress_continuous Scenario.no_segments [] Scenario.kernel_raw
    Scenario.kernel_events (Some Scenario.kernel_event_id)
    (Seconds (Int 0)) (Seconds (Int 2)) None (RejectFlag true) None
    = Err (NameError "scipy") /\
  regress_continuous Scenario.no_segments Scenario.repaired Scenario.kernel_raw
    Scenario.kernel_events (Some Scenario.kernel_event_id)
    (Seconds (Int 0)) (Seconds (Int 2)) None (RejectFlag true) None
    = Err (LinAlgError "singular matrix").
Proof. repeat split; vm_compute; reflexivity. Qed.

(** ** Rejection disabled *)

(** With [reject=None] the call through the local name
    [_reject_data_segments] is reached with the name unbound. *)
Lemma apply_rejection_none detect data tstep has_val :
  apply_rejection detect data RejectNone tstep has_val
  = Err (UnboundLocalError "_reject_data_segments").
Proof. reflexivity. Qed.

Lemma reject_none_raises detect extra raw events event_id tmin tmax covariates tstep :
  raises (regress_continuous detect extra raw events event_id tmin tmax
            covariates RejectNone tstep).
Proof.
  unfold regress_continuous.
  do 4 raise_step. rewrite apply_rejection_none. apply raises_err.
Qed.

(** C5. With rejection disabled no call returns, whatever names are
    bound: as written it raises [NameError], and with [scipy] and [mne]
    bound it raises [UnboundLocalError] at the rejector call, on an input
    for which the same call with rejection enabled returns. *)
Theorem reject_none_reaches_unbound_rejector :
  (forall detect extra raw events event_id tmin tmax covariates tstep,
      raises (regress_continuous detect extra raw events event_id tmin tmax
                covariates RejectNone tstep)) /\
  regress_continuous Scenario.no_segments [] Scenario.slope_raw
    Scenario.slope_events (Some []) (Seconds (Int 0))
    (PerCondition [("c", Some (Int 2))])
    (Some Scenario.slope_covariates) RejectNone None
    = Err (NameError "scipy") /\
  regress_continuous Scenario.no_segments Scenario.repaired Scenario.slope_raw
    Scenario.slope_events (Some []) (Seconds (Int 0))
    (PerCondition [("c", Some (Int 2))])
    (Some Scenario.slope_covariates) RejectNone None
    = Err (UnboundLocalError "_reject_data_segments") /\
  (exists ev_dict,
      regress_continuous Scenario.no_segments Scenario.repaired Scenario.slope_raw
        Scenario.slope_events (Some []) (Seconds (Int 0))
        (PerCondition [("c", Some (Int 2))])
        (Some Scenario.slope_covariates) (RejectFlag true) None
        = Ok ev_dict).
Proof.
  split; [intros; apply reject_none_raises|].
  split; [vm_compute; reflexivity|].
  split; [vm_compute; reflexivity|].
  eexists. vm_compute. reflexivity.
Qed.

(** ** Covariate length *)


(** C8. Ten events, a binary condition and a covariate of five values,
    scalar windows: the call raises [NameError] on the binary condition
    before the covariate is looked at; with [scipy] and [mne] bound it
    raises [KeyError] at [tmax[cond]], the scalar [tmax] having been spread
    over the keys of [event_id] only.  The length check itself, when
    reached, raises the [ValueError] naming the condition. *)
Theorem covariate_mismatch_not_reported :
  length Scenario.short_events = 10%nat /\
  regress_continuous Scenario.no_segments [] Scenario.short_raw
    Scenario.short_events (Some Scenario.short_event_id)
    (Seconds (Float (decimal (-1) 10))) (Seconds (Int 1))
    (Some Scenario.short_covariates)
    (RejectFlag true) None
    = Err (NameError "scipy") /\
  regress_continuous Scenario.no_segments Scenario.repaired Scenario.short_raw
    Scenario.short_events (Some Scenario.short_event_id)
    (Seconds (Float (decimal (-1) 10))) (Seconds (Int 1))
    (Some Scenario.short_covariates)
    (RejectFlag true) None
    = Err (KeyError "c") /\
  fill_samples 120 Scenario.short_events Scenario.short_event_id
    (Some Scenario.short_covariates) "c" (-1)
    = Err (ValueError (covariate_error "c")).
Proof. repeat split; vm_compute; reflexivity. Qed.

(** ** Lag matrix *)

Lemma nth_map_seq {A : Type} (f : nat -> A) (n i : nat) (d : A) :
  (i < n)%nat -> nth i (map f (seq 0 n)) d = f i.
Proof.
  intros Hi. rewrite (nth_indep _ d (f 0%nat)).
  - rewrite map_nth, seq_nth; [reflexivity|assumption].
  - rewrite length_map, length_seq. assumption.
Qed.

Lemma np_zeros_length (n : nat) : length (np_zeros n) = n.
Proof. apply length_replicate. Qed.

Lemma np_zeros_lookup (n i : nat) : (i < n)%nat -> np_zeros n !! i = Some 0%Q.
Proof. apply lookup_replicate_2. Qed.

(** The contract of the lag matrix, for the expression
    [toeplitz(samples, lags)] with [lags] a vector of zeros. *)
Lemma toeplitz_lag_entry (samples : list Q) (n_lags t l : nat) :
  (t < length samples)%nat -> (l < n_lags)%nat ->
  nth l (nth t (rows (toeplitz samples (np_zeros n_lags))) []) 0%Q
  = if (l <=? t)%nat then nth (t - l) samples 0%Q else 0%Q.
Proof.
  intros Ht Hl. unfold toeplitz. cbn [rows]. rewrite np_zeros_length.
  rewrite nth_map_seq by assumption. rewrite nth_map_seq by assumption.
  destruct (l <=? t)%nat; [reflexivity|].
  rewrite nth_lookup. destruct (np_zeros n_lags !! (l - t)%nat) as [x|] eqn:E;
    [|reflexivity].
  apply lookup_replicate_1 in E. destruct E as [-> _]. reflexivity.
Qed.

Lemma toeplitz_shape (samples : list Q) (n_lags : nat) :
  shape0 (toeplitz samples (np_zeros n_lags)) = length samples /\
  shape1 (toeplitz samples (np_zeros n_lags)) = n_lags.
Proof. split; [reflexivity|apply np_zeros_length]. Qed.

(** C9. No pass of the predictor loop returns a lag matrix: on the kernel
    data it raises [NameError] at the call that should build it; with
    [scipy] bound the same pass yields the 8 x 2 matrix of the contract. *)
Theorem lag_matrix_not_built :
  (forall T events event_id covariates tmin tmax cond,
      raises (build_predictor [] T events event_id covariates tmin tmax cond)) /\
  build_predictor [] 8 Scenario.kernel_events Scenario.kernel_event_id None
    [("a", 0)] [("a", 2)] "a"
    = Err (NameError "scipy") /\
  build_predictor Scenario.repaired 8 Scenario.kernel_events
    Scenario.kernel_event_id None [("a", 0)] [("a", 2)] "a"
    = Ok (1%nat,
          mk_ndarray 8 2
            [[0; 0]; [1; 0]; [0; 1]; [0; 0]; [0; 0]; [1; 0]; [0; 1]; [0; 0]]%Q).
Proof.
  split; [intros; apply build_predictor_module_raises|].
  split; vm_compute; reflexivity.
Qed.

(** ** Window resolution *)

Lemma dict_get_map {V : Type} (f : string -> V) (l : list string) (k : string) :
  In k l -> dict_get (map (fun c => (c, f c)) l) k = Some (f k).
Proof.
  induction l as [|c l IH]; intros Hin; [destruct Hin|].
  cbn. destruct (String.eqb_spec k c) as [->|Hne]; [reflexivity|].
  destruct Hin as [->|Hin]; [contradiction|]. apply IH, Hin.
Qed.

Lemma dict_get_In {V : Type} (d : dict V) (k : string) (v : V) :
  dict_get d k = Some v -> In (k, v) d.
Proof.
  induction d as [|[k' v'] d IH]; cbn; [discriminate|].
  destruct (String.eqb_spec k k') as [->|Hne].
  - intros [= ->]. left. reflexivity.
  - intros H. right. apply IH, H.
Qed.

Lemma is_finite_mul (x y : float) :
  is_finite (float_mul x y) = true -> is_finite x = true.
Proof.
  intros H. destruct x as [s|s| |s m e]; try reflexivity;
    destruct y; discriminate H.
Qed.

Lemma py_int_finite (x : float) :
  is_finite x = true -> py_int x = Ok (truncate x).
Proof. destruct x; intros H; try discriminate H; reflexivity. Qed.

(** A finite product converts, to its integer part. *)
Lemma to_samples_finite (v : number) (sfreq : float) :
  is_finite (product v sfreq) = true ->
  to_samples v sfreq = Ok (truncate (product v sfreq)).
Proof.
  unfold product, to_samples, mul_float. intros H.
  destruct v as [z|x]; cbn [as_float] in *.
  - unfold float_of_int. rewrite (is_finite_mul _ _ H). cbn [bind].
    apply py_int_finite, H.
  - cbn [bind]. apply py_int_finite, H.
Qed.

Lemma window_get_numeric d cond default sfreq :
  numeric (PerCondition d) ->
  is_finite (product (seconds_for (PerCondition d) cond default) sfreq) = true ->
  window_get d cond default sfreq
  = Ok (samples_for (PerCondition d) cond default sfreq).
Proof.
  unfold samples_for. cbn. intros Hd. unfold window_get.
  destruct (dict_get d cond) as [[s|]|] eqn:E.
  - apply to_samples_finite.
  - apply dict_get_In, list_elem_of_In in E. rewrite Forall_forall in Hd.
    specialize (Hd _ E). cbn in Hd. congruence.
  - apply to_samples_finite.
Qed.

Lemma mapM_window_get d default sfreq conds :
  resolvable (PerCondition d) default sfreq conds ->
  mapM (fun cond => v <- window_get d cond default sfreq ;; Ok (cond, v)) conds
  = Ok (map (fun cond => (cond, samples_for (PerCondition d) cond default sfreq))
            conds).
Proof.
  intros [Hd Hfin]. induction conds as [|c conds IH]; [reflexivity|].
  cbn [mapM map].
  rewrite (window_get_numeric _ _ _ _ Hd) by (apply Hfin; left; reflexivity).
  cbn [bind]. rewrite IH by (intros x Hx; apply Hfin; right; exact Hx).
  reflexivity.
Qed.

Lemma mapM_to_samples s default sfreq conds :
  resolvable (Seconds s) default sfreq conds ->
  mapM (fun cond => v <- to_samples s sfreq ;; Ok (cond, v)) conds
  = Ok (map (fun cond => (cond, samples_for (Seconds s) cond default sfreq))
            conds).
Proof.
  intros [_ Hfin]. induction conds as [|c conds IH]; [reflexivity|].
  cbn [mapM map]. rewrite IH by (intros x Hx; apply Hfin; right; exact Hx).
  assert (E : to_samples s sfreq = Ok (samples_for (Seconds s) c default sfreq))
    by (apply to_samples_finite, (Hfin c); left; reflexivity).
  rewrite E. reflexivity.
Qed.

(** A spec of numbers with finite products resolves, to the comprehension
    over the list the source iterates. *)
Lemma resolve_window_numeric spec default sfreq scalar_over dict_over :
  resolvable spec default sfreq
    (match spec with Seconds _ => scalar_over | _ => dict_over end) ->
  resolve_window spec default sfreq scalar_over dict_over
  = Ok (map (fun cond => (cond, samples_for spec cond default sfreq))
            (match spec with Seconds _ => scalar_over | _ => dict_over end)).
Proof.
  destruct spec as [s|d|]; intros Hn.
  - apply mapM_to_samples, Hn.
  - apply mapM_window_get, Hn.
  - destruct Hn as [[] _].
Qed.

Lemma resolve_windows_numeric tmin tmax sfreq conds event_keys :
  resolvable tmin default_tmin sfreq conds ->
  resolvable tmax default_tmax sfreq
    (match tmax with Seconds _ => event_keys | _ => conds end) ->
  resolve_windows tmin tmax sfreq conds event_keys
  = Ok (map (fun cond => (cond, samples_for tmin cond default_tmin sfreq)) conds,
        map (fun cond => (cond, samples_for tmax cond default_tmax sfreq))
            (match tmax with Seconds _ => event_keys | _ => conds end)).
Proof.
  intros H1 H2. unfold resolve_windows.
  rewrite (resolve_window_numeric tmin) by (destruct tmin; exact H1).
  rewrite (resolve_window_numeric tmax) by assumption.
  cbn [bind]. destruct tmin; reflexivity.
Qed.

(** The integer part rounds toward zero: down for a non-negative float, up
    for a negative one. *)
Lemma truncate_floor_ceiling (x : float) :
  truncate x = if Qle_bool 0 (float_value x) then Qfloor (float_value x)
               else Qceiling (float_value x).
Proof.
  destruct x as [s|s| |s m e]; try reflexivity.
  unfold truncate, float_value.
  assert (Hint : forall k, 0 <= k ->
            cond_Zopp s (Z.shiftl (Z.pos m) k)
            = (let v := inject_Z (Z.pos m * 2 ^ k) in
               if Qle_bool 0 (if s then Qopp v else v)
               then Qfloor (if s then Qopp v else v)
               else Qceiling (if s then Qopp v else v))).
  { intros k Hk. cbv zeta.
    assert (Hpos : 0 < Z.pos m * 2 ^ k).
    { apply Z.mul_pos_pos; [lia|]. apply Z.pow_pos_nonneg; lia. }
    rewrite Z.shiftl_mul_pow2 by exact Hk.
    destruct s; cbn [cond_Zopp].
    - unfold Qle_bool, Qceiling, Qfloor, Qopp, inject_Z. cbn [Qnum Qden].
      rewrite ?Z.opp_involutive, ?Z.div_1_r, ?Z.mul_1_r.
      destruct (Z.leb_spec 0 (- (Z.pos m * 2 ^ k))); [lia|reflexivity].
    - unfold Qle_bool, Qfloor, inject_Z. cbn [Qnum Qden].
      rewrite ?Z.div_1_r, ?Z.mul_1_r.
      destruct (Z.leb_spec 0 (Z.pos m * 2 ^ k)); [reflexivity|lia]. }
  destruct e as [|p|p].
  - apply (Hint 0). lia.
  - apply (Hint (Z.pos p)). lia.
  - change (Z.shiftl (Z.pos m) (Z.neg p)) with (Z.shiftr (Z.pos m) (Z.pos p)).
    rewrite Z.shiftr_div_pow2 by lia.
    rewrite <- Pos2Z.inj_pow.
    destruct s; cbn [cond_Zopp].
    + unfold Qle_bool, Qceiling, Qfloor, Qopp. cbn [Qnum Qden].
      rewrite Z.opp_involutive. reflexivity.
    + unfold Qle_bool, Qfloor. cbn [Qnum Qden]. reflexivity.
Qed.

Lemma allocation_negative extra T events event_id covariates tmin tmax cond a b :
  dict_get tmin cond = Some a ->
  dict_get tmax cond = Some b ->
  b < a ->
  build_predictor extra T events event_id covariates tmin tmax cond
  = Err (ValueError "negative dimensions are not allowed").
Proof.
  intros Ha Hb Hlt. unfold build_predictor, dict_item. rewrite Ha, Hb.
  cbn [bind]. unfold np_zeros_int.
  destruct (Z.ltb_spec (b - a) 0); [reflexivity|lia].
Qed.


(** C7 (as amended). For window specs of numbers whose products with the
    sampling rate are finite the resolver returns, and it maps every
    condition - binary ones from [event_id], continuous ones from
    [covariates] - to [int(seconds * sfreq)]: the binary64 product, rounded
    toward zero (not floored), with defaults -0.1 s and 1 s for conditions
    a mapping leaves out: for [tmin] in both forms, for [tmax] in the
    mapping form, and for the keys of [event_id] when [tmax] is a scalar. *)
Theorem windows_round_toward_zero tmin tmax sfreq
    (event_id : dict codes) (covariates : dict (list Q)) :
  resolvable tmin default_tmin sfreq (keys event_id ++ keys covariates)%list ->
  resolvable tmax default_tmax sfreq
    (match tmax with
     | Seconds _ => keys event_id
     | _ => (keys event_id ++ keys covariates)%list
     end) ->
  default_tmin = Float (decimal (-1) 10) /\ default_tmax = Int 1 /\
  (forall spec cond default,
      samples_for spec cond default sfreq
      = let x := float_value (float_mul (as_float (seconds_for spec cond default))
                                        sfreq) in
        if Qle_bool 0 x then Qfloor x else Qceiling x) /\
  exists tmin' tmax',
    resolve_windows tmin tmax sfreq (keys event_id ++ keys covariates)%list
      (keys event_id) = Ok (tmin', tmax') /\
    forall cond,
      In cond (keys event_id ++ keys covariates)%list ->
      dict_get tmin' cond = Some (samples_for tmin cond default_tmin sfreq) /\
      (match tmax with Seconds _ => In cond (keys event_id) | _ => True end ->
       dict_get tmax' cond = Some (samples_for tmax cond default_tmax sfreq)).
Proof.
  intros H1 H2. split; [reflexivity|]. split; [reflexivity|].
  split; [intros; apply truncate_floor_ceiling|].
  do 2 eexists. split.
  - apply resolve_windows_numeric; assumption.
  - intros cond Hin. split.
    + apply (dict_get_map (fun c => samples_for tmin c default_tmin sfreq)).
      exact Hin.
    + intros Hk.
      apply (dict_get_map (fun c => samples_for tmax c default_tmax sfreq)).
      destruct tmax; assumption.
Qed.



(** At 100 Hz: a start of -0.125 s comes to -12 samples, a condition the
    [tmin] mapping leaves out to the default -10, an end of 0.29 s to 28
    samples (the binary64 product is 28.999999999999996), and a condition
    the [tmax] mapping leaves out to the default 100. *)
Lemma windows_round_toward_zero_witness :
  resolvable (PerCondition [("a", Some (Float (decimal (-1) 8)))]) default_tmin
    (to_float 100) ["a"; "b"; "c"] /\
  resolvable (PerCondition [("a", Some (Float (decimal 29 100)))]) default_tmax
    (to_float 100) ["a"; "b"; "c"] /\
  exists tmin' tmax',
    resolve_windows (PerCondition [("a", Some (Float (decimal (-1) 8)))])
      (PerCondition [("a", Some (Float (decimal 29 100)))])
      (to_float 100) ["a"; "b"; "c"] ["a"; "b"]
    = Ok (tmin', tmax') /\
    dict_get tmin' "a" = Some (-12) /\
    dict_get tmin' "c" = Some (-10) /\
    dict_get tmax' "a" = Some 28 /\
    dict_get tmax' "b" = Some 100.
Proof.
  assert (Hmin : resolvable (PerCondition [("a", Some (Float (decimal (-1) 8)))])
                   default_tmin (to_float 100) ["a"; "b"; "c"]).
  { split; [constructor; [discriminate|constructor]|].
    intros c [<-|[<-|[<-|[]]]]; vm_compute; reflexivity. }
  assert (Hmax : resolvable (PerCondition [("a", Some (Float (decimal 29 100)))])
                   default_tmax (to_float 100) ["a"; "b"; "c"]).
  { split; [constructor; [discriminate|constructor]|].
    intros c [<-|[<-|[<-|[]]]]; vm_compute; reflexivity. }
  split; [exact Hmin|]. split; [exact Hmax|].
  destruct (windows_round_toward_zero _ _ (to_float 100)
              [("a", Code 1); ("b", CodeList [2; 3])] [("c", [1; 2]%Q)]
              Hmin Hmax)
    as (_ & _ & _ & tmin' & tmax' & Hres & H).
  exists tmin', tmax'. split; [exact Hres|].
  destruct (H "a") as [Ha Ha']; [left; reflexivity|].
  destruct (H "c") as [Hc _]; [right; right; left; reflexivity|].
  destruct (H "b") as [_ Hb]; [right; left; reflexivity|].
  split; [exact Ha|]. split; [exact Hc|].
  split; [exact (Ha' I)|exact (Hb I)].
Defined.

(** A window start of -0.125 s at 100 Hz resolves to -12 samples, where
    flooring the product -12.5 (which binary64 represents exactly) gives
    -13. *)
Lemma negative_window_not_floored :
  resolve_windows (Seconds (Float (decimal (-1) 8))) (Seconds (Int 1))
    (to_float 100) ["a"] ["a"]
    = Ok ([("a", -12)], [("a", 100)]) /\
  (float_value (product (Float (decimal (-1) 8)) (to_float 100)) == -25 # 2)%Q /\
  floor_int (float_value (product (Float (decimal (-1) 8)) (to_float 100)))
  = -13.
Proof. repeat split; vm_compute; reflexivity. Qed.

(** The product is rounded before it is truncated: 0.29 s at 100 Hz comes
    to 28 samples, the binary64 product being 8162774324609023 / 2^48 =
    28.999999999999996..., and 0.7 s to 70; a product that overflows, an
    integer too large for a float, or a NaN, makes the resolution raise. *)
Lemma products_are_rounded :
  to_samples (Float (decimal 29 100)) (to_float 100) = Ok 28 /\
  to_samples (Float (decimal 7 10)) (to_float 100) = Ok 70 /\
  (float_value (product (Float (decimal 29 100)) (to_float 100))
   == 8162774324609023 # 281474976710656)%Q /\
  floor_int ((29 # 100) * 100)%Q = 29 /\
  resolve_windows (Seconds (Float (to_float (10 ^ 308)))) (Seconds (Int 1))
    (to_float 100) ["a"] ["a"]
  = Err (OverflowError "cannot convert float infinity to integer") /\
  resolve_windows (Seconds (Int (10 ^ 309))) (Seconds (Int 1))
    (to_float 100) ["a"] ["a"]
  = Err (OverflowError "int too large to convert to float") /\
  resolve_windows (Seconds (Float S754_nan)) (Seconds (Int 1))
    (to_float 100) ["a"] ["a"]
  = Err (ValueError "cannot convert float NaN to integer").
Proof. repeat split; vm_compute; reflexivity. Qed.

(** ** Out-of-range offsets *)

Lemma norm_index_in_range (T : nat) (o : Z) :
  in_range T o -> norm_index T o = Ok (wrapped T o).
Proof.
  unfold in_range, norm_index, wrapped. intros [Hlo Hhi].
  destruct (Z.ltb_spec o 0) as [Hneg|Hpos].
  - replace (0 <=? o) with false by (symmetry; apply Z.leb_gt; lia).
    cbn [andb].
    replace (- Z.of_nat T <=? o) with true by (symmetry; apply Z.leb_le; lia).
    reflexivity.
  - replace (0 <=? o) with true by (symmetry; apply Z.leb_le; lia).
    replace (o <? Z.of_nat T) with true by (symmetry; apply Z.ltb_lt; lia).
    reflexivity.
Qed.

Lemma norm_index_out_of_range (T : nat) (o : Z) :
  ~ in_range T o -> norm_index T o = Err (IndexError "index out of bounds").
Proof.
  unfold in_range, norm_index. intros Hout.
  destruct (Z.leb_spec 0 o) as [H0|H0]; cbn [andb].
  - destruct (Z.ltb_spec o (Z.of_nat T)); [lia|].
    replace (o <? 0) with false by (symmetry; apply Z.ltb_ge; lia).
    rewrite andb_false_r. reflexivity.
  - destruct (Z.leb_spec (- Z.of_nat T) o); [lia|]. reflexivity.
Qed.

Lemma in_range_dec (T : nat) (o : Z) : {in_range T o} + {~ in_range T o}.
Proof.
  unfold in_range.
  destruct (Z_le_dec (- Z.of_nat T) o); [|right; lia].
  destruct (Z_lt_dec o (Z.of_nat T)); [left; lia|right; lia].
Qed.

Lemma wrapped_lt (T : nat) (o : Z) : in_range T o -> (wrapped T o < T)%nat.
Proof.
  unfold in_range, wrapped. intros [Hlo Hhi].
  destruct (Z.ltb_spec o 0); lia.
Qed.

Lemma wrapped_negative (T : nat) (o : Z) :
  o < 0 -> Z.of_nat (wrapped T o) = Z.of_nat T + o \/ o < - Z.of_nat T.
Proof.
  unfold wrapped. intros Hneg.
  replace (o <? 0) with true by (symmetry; apply Z.ltb_lt; lia).
  destruct (Z_le_dec (- Z.of_nat T) o); [left; lia|right; lia].
Qed.

Lemma mapM_norm_index_in_range (T : nat) (offs : list Z) :
  Forall (in_range T) offs ->
  mapM (norm_index T) offs = Ok (map (wrapped T) offs).
Proof.
  induction 1 as [|o offs Ho _ IH]; [reflexivity|].
  cbn [mapM map]. rewrite (norm_index_in_range _ _ Ho). cbn [bind].
  rewrite IH. reflexivity.
Qed.

Lemma mapM_norm_index_out_of_range (T : nat) (offs : list Z) :
  Exists (fun o => ~ in_range T o) offs ->
  mapM (norm_index T) offs = Err (IndexError "index out of bounds").
Proof.
  induction 1 as [o offs Ho|o offs _ IH]; cbn [mapM].
  - rewrite (norm_index_out_of_range _ _ Ho). reflexivity.
  - destruct (in_range_dec T o) as [Hin|Hout].
    + rewrite (norm_index_in_range _ _ Hin). cbn [bind]. rewrite IH. reflexivity.
    + rewrite (norm_index_out_of_range _ _ Hout). reflexivity.
Qed.

(** Writing one value at a list of positions. *)
Lemma fold_insert_spec (v : Q) (js : list nat) :
  forall a : list Q,
    Forall (fun j => (j < length a)%nat) js ->
    length (fold_left (fun acc j => <[j := v]> acc) js a) = length a /\
    (forall j, In j js ->
               fold_left (fun acc j => <[j := v]> acc) js a !! j = Some v) /\
    (forall i, ~ In i js ->
               fold_left (fun acc j => <[j := v]> acc) js a !! i = a !! i).
Proof.
  induction js as [|j js IH]; intros a Hjs.
  - cbn. repeat split; intros; try reflexivity; contradiction.
  - inversion Hjs as [|? ? Hj Hjs']; subst. cbn [fold_left].
    destruct (IH (<[j := v]> a)) as (Hlen & Hset & Hkeep).
    { rewrite length_insert. exact Hjs'. }
    rewrite length_insert in Hlen.
    split; [exact Hlen|]. split.
    + intros j' [<-|Hin].
      * destruct (in_dec Nat.eq_dec j js) as [Hin|Hnin]; [apply Hset, Hin|].
        rewrite (Hkeep _ Hnin). apply list_lookup_insert_eq, Hj.
      * apply Hset, Hin.
    + intros i Hnin. rewrite Hkeep by (intros Hin; apply Hnin; right; exact Hin).
      apply list_lookup_insert_ne. intros ->. apply Hnin. left. reflexivity.
Qed.

Lemma setitem_fancy_in_range (T : nat) (offs : list Z) (v : Q) :
  Forall (in_range T) offs ->
  exists samples,
    setitem_fancy (np_zeros T) offs v = Ok samples /\
    length samples = T /\
    (forall o, In o offs -> samples !! wrapped T o = Some v) /\
    (forall j, (j < T)%nat -> (forall o, In o offs -> wrapped T o <> j) ->
               samples !! j = Some 0%Q).
Proof.
  intros Hoffs. unfold setitem_fancy. rewrite np_zeros_length.
  rewrite (mapM_norm_index_in_range _ _ Hoffs). cbn [bind].
  destruct (fold_insert_spec v (map (wrapped T) offs) (np_zeros T))
    as (Hlen & Hset & Hkeep).
  { rewrite np_zeros_length. apply List.Forall_forall. intros j Hj.
    apply in_map_iff in Hj. destruct Hj as (o & <- & Ho).
    apply wrapped_lt. rewrite List.Forall_forall in Hoffs. apply Hoffs, Ho. }
  eexists. split; [reflexivity|]. rewrite np_zeros_length in Hlen.
  split; [exact Hlen|]. split.
  - intros o Ho. apply Hset, in_map, Ho.
  - intros j Hj Hfree. rewrite Hkeep.
    + apply np_zeros_lookup, Hj.
    + intros Hin. apply in_map_iff in Hin. destruct Hin as (o & Heq & Ho).
      exact (Hfree o Ho Heq).
Qed.

Lemma lookup_map_Some {A B : Type} (f : A -> B) (l : list A) (i : nat) (y : B) :
  map f l !! i = Some y <-> exists x, l !! i = Some x /\ f x = y.
Proof.
  revert i. induction l as [|a l IH]; intros i.
  - split; [discriminate|]. intros (x & Hx & _). discriminate.
  - destruct i as [|i]; cbn.
    + split.
      * intros [= <-]. exists a. split; reflexivity.
      * intros (x & [= ->] & <-). reflexivity.
    + apply IH.
Qed.

(** The covariate loop, all writes in range: the result keeps what no
    write reached and holds, at each reached index, the value of the last
    event written there. *)
Lemma assign_covariate_in_range (tmin_ : Z) :
  forall (txs : list Z) (vs samples : list Q),
    length vs = length txs ->
    Forall (fun tx => in_range (length samples) (tx + tmin_)) txs ->
    exists s,
      assign_covariate samples txs vs tmin_ = Ok s /\
      length s = length samples /\
      (forall i,
          (forall tx, In tx txs -> wrapped (length samples) (tx + tmin_) <> i) ->
          s !! i = samples !! i) /\
      (forall k tx v,
          txs !! k = Some tx -> vs !! k = Some v ->
          (forall k' tx', (k < k')%nat -> txs !! k' = Some tx' ->
                          wrapped (length samples) (tx' + tmin_)
                          <> wrapped (length samples) (tx + tmin_)) ->
          s !! wrapped (length samples) (tx + tmin_) = Some v).
Proof.
  induction txs as [|tx0 txs IH]; intros vs samples Hlen Hall.
  - exists samples. cbn. repeat split; intros; try reflexivity; discriminate.
  - destruct vs as [|v0 vs]; [discriminate|].
    inversion Hall as [|? ? H0 Hall']; subst.
    cbn [assign_covariate]. unfold setitem.
    rewrite (norm_index_in_range _ _ H0). cbn [bind].
    destruct (IH vs (<[wrapped (length samples) (tx0 + tmin_) := v0]> samples))
      as (s & Hs & Hlen' & Hkeep & Hlast).
    { cbn in Hlen. lia. }
    { rewrite length_insert. exact Hall'. }
    rewrite length_insert in Hlen', Hkeep, Hlast.
    exists s. split; [exact Hs|]. split; [exact Hlen'|]. split.
    + intros i Hfree. rewrite Hkeep.
      * apply list_lookup_insert_ne. apply Hfree. left. reflexivity.
      * intros tx Htx. apply Hfree. right. exact Htx.
    + intros k tx v Hk Hv Hlater. destruct k as [|k].
      * cbn in Hk, Hv. injection Hk as ->. injection Hv as ->.
        rewrite Hkeep.
        -- apply list_lookup_insert_eq, wrapped_lt, H0.
        -- intros tx' Htx'. apply list_elem_of_In, list_elem_of_lookup_1 in Htx'.
           destruct Htx' as [k' Hk']. apply (Hlater (S k') tx'); [lia|exact Hk'].
      * apply (Hlast k tx v); [exact Hk|exact Hv|].
        intros k' tx' Hlt Hk'. apply (Hlater (S k') tx'); [lia|exact Hk'].
Qed.

Lemma assign_covariate_out_of_range (tmin_ : Z) :
  forall (txs : list Z) (vs samples : list Q),
    length vs = length txs ->
    Exists (fun tx => ~ in_range (length samples) (tx + tmin_)) txs ->
    assign_covariate samples txs vs tmin_ = Err (IndexError "index out of bounds").
Proof.
  induction txs as [|tx0 txs IH]; intros vs samples Hlen Hex.
  - inversion Hex.
  - destruct vs as [|v0 vs]; [discriminate|].
    cbn [assign_covariate]. unfold setitem.
    destruct (in_range_dec (length samples) (tx0 + tmin_)) as [Hin|Hout].
    + rewrite (norm_index_in_range _ _ Hin). cbn [bind].
      apply IH; [cbn in Hlen; lia|]. rewrite length_insert.
      inversion Hex as [? ? H0|? ? Hex']; subst; [contradiction|exact Hex'].
    + rewrite (norm_index_out_of_range _ _ Hout). reflexivity.
Qed.

Lemma fill_samples_binary T events event_id covariates cond tmin_ c :
  in_keys cond (keys event_id) = true ->
  dict_get event_id cond = Some c ->
  onsets_of (ids_of c) events <> [] ->
  fill_samples T events event_id covariates cond tmin_
  = setitem_fancy (np_zeros T)
      (map (fun t => t + tmin_) (onsets_of (ids_of c) events)) 1%Q.
Proof.
  intros Hk Hc Hne. unfold fill_samples, dict_item. rewrite Hk, Hc. cbn [bind].
  destruct (onsets_of (ids_of c) events); [contradiction|reflexivity].
Qed.

(** A binary condition none of whose codes occurs in [events]. *)
Lemma fill_samples_no_event T events event_id covariates cond tmin_ c :
  in_keys cond (keys event_id) = true ->
  dict_get event_id cond = Some c ->
  onsets_of (ids_of c) events = [] ->
  fill_samples T events event_id covariates cond tmin_
  = Err (IndexError
           "arrays used as indices must be of integer (or boolean) type").
Proof.
  intros Hk Hc He. unfold fill_samples, dict_item. rewrite Hk, Hc. cbn [bind].
  rewrite He. reflexivity.
Qed.

Lemma Exists_not_nil {A : Type} (P : A -> Prop) (l : list A) :
  Exists P l -> l <> [].
Proof. intros H ->. inversion H. Qed.

Lemma fill_samples_covariate T events event_id d cond tmin_ cov :
  in_keys cond (keys event_id) = false ->
  dict_get d cond = Some cov ->
  length cov = length events ->
  fill_samples T events event_id (Some d) cond tmin_
  = assign_covariate (np_zeros T) (map (fun ev : event => fst (fst ev)) events)
      cov tmin_.
Proof.
  intros Hk Hc Hlen. unfold fill_samples, dict_item. rewrite Hk, Hc. cbn [bind].
  rewrite Hlen, Nat.eqb_refl. reflexivity.
Qed.

(** C10 (as amended). When every offset (onset + tmin_samples) of the
    condition's events lies in [-T, T), the builder writes the indicator
    value at the offset itself, or at T + offset for a negative offset - no
    event is clipped or dropped, and nothing is raised; when some offset
    lies outside [-T, T) (at or above T, or below -T) the indexed write
    raises [IndexError].  This holds for binary conditions with at least
    one event (value 1) and for covariates (the value of the last event
    written at the index). *)
Theorem offsets_wrap_or_raise (T : nat) (events : list event)
    (event_id : dict codes) (cond : string) (tmin_ : Z) :
  (forall o, in_range T o -> o < 0 ->
             Z.of_nat (wrapped T o) = Z.of_nat T + o) /\
  (forall covariates c,
      in_keys cond (keys event_id) = true ->
      dict_get event_id cond = Some c ->
      (onsets_of (ids_of c) events <> [] ->
       Forall (fun t => in_range T (t + tmin_)) (onsets_of (ids_of c) events) ->
       exists samples,
         fill_samples T events event_id covariates cond tmin_ = Ok samples /\
         length samples = T /\
         (forall t, In t (onsets_of (ids_of c) events) ->
                    samples !! wrapped T (t + tmin_) = Some 1%Q) /\
         (forall j, (j < T)%nat ->
                    (forall t, In t (onsets_of (ids_of c) events) ->
                               wrapped T (t + tmin_) <> j) ->
                    samples !! j = Some 0%Q)) /\
      (Exists (fun t => ~ in_range T (t + tmin_)) (onsets_of (ids_of c) events) ->
       fill_samples T events event_id covariates cond tmin_
       = Err (IndexError "index out of bounds"))) /\
  (forall d cov,
      in_keys cond (keys event_id) = false ->
      dict_get d cond = Some cov ->
      length cov = length events ->
      (Forall (fun ev : event => in_range T (fst (fst ev) + tmin_)) events ->
       exists samples,
         fill_samples T events event_id (Some d) cond tmin_ = Ok samples /\
         length samples = T /\
         (forall k ev v,
             events !! k = Some ev -> cov !! k = Some v ->
             (forall k' ev', (k < k')%nat -> events !! k' = Some ev' ->
                             wrapped T (fst (fst ev') + tmin_)
                             <> wrapped T (fst (fst ev) + tmin_)) ->
             samples !! wrapped T (fst (fst ev) + tmin_) = Some v)) /\
      (Exists (fun ev : event => ~ in_range T (fst (fst ev) + tmin_)) events ->
       fill_samples T events event_id (Some d) cond tmin_
       = Err (IndexError "index out of bounds"))).
Proof.
  split; [|split].
  - intros o Hin Hneg. destruct (wrapped_negative T o Hneg) as [H|H]; [exact H|].
    unfold in_range in Hin. lia.
  - intros covariates c Hk Hc. split.
    + intros Hne Hall. rewrite (fill_samples_binary _ _ _ _ _ _ _ Hk Hc Hne).
      destruct (setitem_fancy_in_range T
                  (map (fun t => t + tmin_) (onsets_of (ids_of c) events)) 1%Q)
        as (samples & Hs & Hlen & Hset & Hzero).
      { apply List.Forall_map. exact Hall. }
      exists samples. split; [exact Hs|]. split; [exact Hlen|]. split.
      * intros t Ht. apply Hset.
        apply (in_map (fun t => t + tmin_)). exact Ht.
      * intros j Hj Hfree. apply Hzero; [exact Hj|].
        intros o Ho. apply in_map_iff in Ho. destruct Ho as (t & <- & Ht).
        apply Hfree, Ht.
    + intros Hex.
      rewrite (fill_samples_binary _ _ _ _ _ _ _ Hk Hc (Exists_not_nil _ _ Hex)).
      unfold setitem_fancy. rewrite np_zeros_length.
      rewrite mapM_norm_index_out_of_range; [reflexivity|].
      apply List.Exists_map. exact Hex.
  - intros d cov Hk Hc Hlen.
    rewrite (fill_samples_covariate _ _ _ _ _ _ _ Hk Hc Hlen). split.
    + intros Hall.
      destruct (assign_covariate_in_range tmin_
                  (map (fun ev : event => fst (fst ev)) events) cov (np_zeros T))
        as (samples & Hs & Hlen' & _ & Hlast).
      { rewrite length_map. exact Hlen. }
      { rewrite np_zeros_length. apply List.Forall_map. exact Hall. }
      rewrite np_zeros_length in Hlen', Hlast.
      exists samples. split; [exact Hs|]. split; [exact Hlen'|].
      intros k ev v Hev Hv Hlater.
      apply (Hlast k (fst (fst ev)) v); [|exact Hv|].
      * apply lookup_map_Some. exists ev. split; [exact Hev|reflexivity].
      * intros k' tx' Hlt Hk'. apply lookup_map_Some in Hk'.
        destruct Hk' as (ev' & Hev' & <-). apply (Hlater k' ev' Hlt Hev').
    + intros Hex. apply assign_covariate_out_of_range.
      * rewrite length_map. exact Hlen.
      * rewrite np_zeros_length. apply List.Exists_map. exact Hex.
Qed.

Lemma offsets_wrap_or_raise_witness :
  (exists samples,
      fill_samples 4 [(0, 0, 1); (2, 0, 1)] [("a", Code 1)] None "a" (-1)
        = Ok samples /\
      samples !! 3%nat = Some 1%Q) /\
  fill_samples 4 [(0, 0, 1); (9, 0, 1)] [("a", Code 1)] None "a" (-1)
    = Err (IndexError "index out of bounds") /\
  (exists samples,
      fill_samples 4 [(0, 0, 1); (2, 0, 1)] [] (Some [("c", [5; 7]%Q)]) "c" (-1)
        = Ok samples /\
      samples !! 3%nat = Some 5%Q) /\
  fill_samples 4 [(0, 0, 1); (2, 0, 1)] [] (Some [("c", [5; 7]%Q)]) "c" (-9)
    = Err (IndexError "index out of bounds").
Proof.
  split; [|split; [|split]].
  - destruct (offsets_wrap_or_raise 4 [(0, 0, 1); (2, 0, 1)] [("a", Code 1)] "a" (-1))
      as (_ & Hbin & _).
    destruct (Hbin None (Code 1) eq_refl eq_refl) as [Hok _].
    destruct Hok as (samples & Hs & _ & Hset & _).
    { discriminate. }
    { repeat constructor; cbn; lia. }
    exists samples. split; [exact Hs|].
    apply (Hset 0). left. reflexivity.
  - destruct (offsets_wrap_or_raise 4 [(0, 0, 1); (9, 0, 1)] [("a", Code 1)] "a" (-1))
      as (_ & Hbin & _).
    destruct (Hbin None (Code 1) eq_refl eq_refl) as [_ Hraise].
    apply Hraise. right. left. unfold in_range. cbn. lia.
  - destruct (offsets_wrap_or_raise 4 [(0, 0, 1); (2, 0, 1)] [] "c" (-1))
      as (_ & _ & Hcov).
    destruct (Hcov [("c", [5; 7]%Q)] [5; 7]%Q eq_refl eq_refl eq_refl) as [Hok _].
    destruct Hok as (samples & Hs & _ & Hlast).
    { repeat constructor; cbn; lia. }
    exists samples. split; [exact Hs|].
    apply (Hlast 0%nat (0, 0, 1) 5%Q); [reflexivity|reflexivity|].
    intros k' ev' Hlt Hev'. destruct k' as [|[|k']]; [lia| |discriminate].
    injection Hev' as <-. cbn. discriminate.
  - destruct (offsets_wrap_or_raise 4 [(0, 0, 1); (2, 0, 1)] [] "c" (-9))
      as (_ & _ & Hcov).
    destruct (Hcov [("c", [5; 7]%Q)] [5; 7]%Q eq_refl eq_refl eq_refl) as [_ Hraise].
    apply Hraise. left. unfold in_range. cbn. lia.
Defined.

(** An event at sample 0 with [tmin_samples = -5] on a timeline of four
    samples: the offset -5 is negative, and the write raises [IndexError]
    instead of landing on a wrapped index. *)
Lemma offset_below_minus_T_raises :
  0 + -5 < 0 /\
  fill_samples 4 [(0, 0, 1)] [("a", Code 1)] None "a" (-5)
    = Err (IndexError "index out of bounds").
Proof. split; [lia|vm_compute; reflexivity]. Qed.

(** * Further properties of the pipeline stages *)

(** ** One pass of the predictor loop (lines 224-245) *)

Lemma fold_insert_length (v : Q) (js : list nat) (a : list Q) :
  length (fold_left (fun acc j => <[j := v]> acc) js a) = length a.
Proof.
  revert a. induction js as [|j js IH]; intros a; [reflexivity|].
  cbn [fold_left]. rewrite IH. apply length_insert.
Qed.

Lemma setitem_fancy_length (a : list Q) (idx : list Z) (v : Q) (s : list Q) :
  setitem_fancy a idx v = Ok s -> length s = length a.
Proof.
  unfold setitem_fancy, bind.
  destruct (mapM (norm_index (length a)) idx) as [js|e]; [|discriminate].
  intros [= <-]. apply fold_insert_length.
Qed.

Lemma assign_covariate_length (tmin_ : Z) (txs : list Z) :
  forall (vs samples s : list Q),
    assign_covariate samples txs vs tmin_ = Ok s -> length s = length samples.
Proof.
  induction txs as [|tx txs IH]; intros vs samples s.
  - cbn. intros [= <-]. reflexivity.
  - destruct vs as [|v vs]; [cbn; intros [= <-]; reflexivity|].
    cbn [assign_covariate]. unfold setitem, bind.
    destruct (norm_index (length samples) (tx + tmin_)) as [j|e]; [|discriminate].
    intros H. apply IH in H. rewrite H. apply length_insert.
Qed.

(** The indicator vector, when built, has one entry per sample. *)
Lemma fill_samples_length T events event_id covariates cond tmin_ samples :
  fill_samples T events event_id covariates cond tmin_ = Ok samples ->
  length samples = T.
Proof.
  unfold fill_samples.
  destruct (in_keys cond (keys event_id)).
  - unfold bind. destruct (dict_item event_id cond) as [c|e]; [|discriminate].
    destruct (onsets_of (ids_of c) events); [discriminate|].
    intros H. apply setitem_fancy_length in H. rewrite H. apply np_zeros_length.
  - unfold bind.
    destruct (match covariates with
              | Some d => dict_item d cond
              | None => Err (TypeError "'NoneType' object is not subscriptable")
              end) as [cov|e]; [|discriminate].
    destruct (negb (Nat.eqb (length cov) (length events))); [discriminate|].
    intros H. apply assign_covariate_length in H. rewrite H.
    apply np_zeros_length.
Qed.

Lemma toeplitz_well_formed (c r : list Q) : well_formed (toeplitz c r).
Proof.
  split; cbn [rows shape0 shape1 toeplitz].
  - rewrite length_map, length_seq. reflexivity.
  - apply List.Forall_map. apply List.Forall_forall. intros i _.
    rewrite length_map, length_seq. reflexivity.
Qed.

(** What a returning pass has done. *)
Lemma build_predictor_inv extra T events event_id covariates tmin tmax cond n blk :
  build_predictor extra T events event_id covariates tmin tmax cond = Ok (n, blk) ->
  exists a b samples,
    dict_get tmin cond = Some a /\
    dict_get tmax cond = Some b /\
    a <= b /\
    fill_samples T events event_id covariates cond a = Ok samples /\
    bound (namespace extra) "scipy" = true /\
    n = 1%nat /\
    blk = toeplitz samples (np_zeros (Z.to_nat (b - a))).
Proof.
  unfold build_predictor, dict_item, bind, np_zeros_int, resolve.
  destruct (dict_get tmin cond) as [a|]; [|discriminate].
  destruct (dict_get tmax cond) as [b|]; [|discriminate].
  destruct (Z.ltb_spec (b - a) 0) as [Hneg|Hpos]; [discriminate|].
  destruct (fill_samples T events event_id covariates cond a) as [samples|e]
    eqn:Hfill; [|discriminate].
  destruct (bound (namespace extra) "scipy") eqn:Hs; [|discriminate].
  intros [= <- <-]. exists a, b, samples.
  split; [reflexivity|]. split; [reflexivity|]. split; [lia|].
  split; [exact Hfill|]. split; [reflexivity|]. split; reflexivity.
Qed.

(** X1. A pass that returns yields a well-formed T x n_lags block whose entry
    (t, l) is the indicator at sample t - l, and 0 above the diagonal; the
    window it used is not inverted. *)
Theorem returned_block_is_lag_matrix extra T events event_id covariates
    tmin tmax cond n blk :
  build_predictor extra T events event_id covariates tmin tmax cond = Ok (n, blk) ->
  0 <= n_lags_of tmin tmax cond /\
  well_formed blk /\
  shape0 blk = T /\
  shape1 blk = Z.to_nat (n_lags_of tmin tmax cond) /\
  exists a samples,
    dict_get tmin cond = Some a /\
    fill_samples T events event_id covariates cond a = Ok samples /\
    length samples = T /\
    forall t l, (t < T)%nat -> (l < shape1 blk)%nat ->
      nth l (nth t (rows blk) []) 0%Q
      = if (l <=? t)%nat then nth (t - l) samples 0%Q else 0%Q.
Proof.
  intros H. apply build_predictor_inv in H.
  destruct H as (a & b & samples & Ha & Hb & Hab & Hfill & _ & _ & ->).
  pose proof (fill_samples_length _ _ _ _ _ _ _ Hfill) as Hlen.
  unfold n_lags_of. rewrite Ha, Hb.
  split; [lia|]. split; [apply toeplitz_well_formed|].
  destruct (toeplitz_shape samples (Z.to_nat (b - a))) as [Hs0 Hs1].
  split; [rewrite Hs0; exact Hlen|]. split; [exact Hs1|].
  exists a, samples. split; [reflexivity|]. split; [exact Hfill|].
  split; [exact Hlen|]. intros t l Ht Hl. rewrite Hs1 in Hl.
  apply toeplitz_lag_entry; [rewrite Hlen; exact Ht|exact Hl].
Qed.

Lemma returned_block_is_lag_matrix_witness :
  exists n blk,
    build_predictor Scenario.repaired 8 Scenario.kernel_events
      Scenario.kernel_event_id None [("a", 0)] [("a", 2)] "a" = Ok (n, blk) /\
    shape0 blk = 8%nat /\ shape1 blk = 2%nat /\
    nth 1 (nth 2 (rows blk) []) 0%Q = 1%Q.
Proof.
  eexists. eexists. split; [vm_compute; reflexivity|].
  destruct (returned_block_is_lag_matrix Scenario.repaired 8
              Scenario.kernel_events Scenario.kernel_event_id None
              [("a", 0)] [("a", 2)] "a" _ _ eq_refl)
    as (_ & _ & H0 & H1 & _).
  split; [exact H0|]. split; [exact H1|]. reflexivity.
Defined.

(** ** The predictor loop and the stacked matrix (lines 223-247) *)

Lemma dict_get_set_eq {V : Type} (d : dict V) (k : string) (v : V) :
  dict_get (dict_set d k v) k = Some v.
Proof.
  induction d as [|[k' v'] d IH]; cbn.
  - rewrite String.eqb_refl. reflexivity.
  - destruct (String.eqb_spec k k') as [->|Hne]; cbn.
    + rewrite String.eqb_refl. reflexivity.
    + destruct (String.eqb_spec k k'); [contradiction|]. exact IH.
Qed.

Lemma dict_get_set_ne {V : Type} (d : dict V) (k k' : string) (v : V) :
  k' <> k -> dict_get (dict_set d k v) k' = dict_get d k'.
Proof.
  intros Hne. induction d as [|[k0 v0] d IH]; cbn.
  - destruct (String.eqb_spec k' k); [contradiction|]. reflexivity.
  - destruct (String.eqb_spec k k0) as [->|Hk]; cbn.
    + destruct (String.eqb_spec k' k0); [contradiction|]. reflexivity.
    + destruct (String.eqb_spec k' k0); [reflexivity|]. exact IH.
Qed.

Lemma build_predictor_block extra T events event_id covariates tmin tmax cond n blk :
  build_predictor extra T events event_id covariates tmin tmax cond = Ok (n, blk) ->
  block_of T tmin tmax cond blk.
Proof.
  intros H. apply build_predictor_inv in H.
  destruct H as (a & b & samples & Ha & Hb & Hab & Hfill & _ & _ & ->).
  unfold block_of, n_lags_of. rewrite Ha, Hb.
  split; [apply toeplitz_well_formed|].
  split; [cbn [toeplitz shape0]; eapply fill_samples_length, Hfill|].
  split; [lia|]. apply toeplitz_shape.
Qed.

Lemma build_predictors_inv extra T events event_id covariates tmin tmax :
  forall conds cl pa cl' pa',
    build_predictors extra T events event_id covariates tmin tmax conds cl pa
    = Ok (cl', pa') ->
    exists blocks,
      pa' = (pa ++ blocks)%list /\
      Forall2 (block_of T tmin tmax) conds blocks /\
      (forall c, In c conds -> dict_get cl' c = Some 1%nat) /\
      (forall c, ~ In c conds -> dict_get cl' c = dict_get cl c).
Proof.
  induction conds as [|cond conds IH]; intros cl pa cl' pa'.
  - cbn. intros [= <- <-]. exists []. rewrite app_nil_r.
    split; [reflexivity|]. split; [constructor|].
    split; [intros c []|reflexivity].
  - cbn [build_predictors]. unfold bind at 1.
    destruct (build_predictor extra T events event_id covariates tmin tmax cond)
      as [[n blk]|e] eqn:Hpass; [|discriminate].
    cbn [fst snd]. intros Hrest.
    destruct (build_predictor_block _ _ _ _ _ _ _ _ _ _ Hpass)
      as (Hwf & Hs0 & Hpos & Hs1).
    apply build_predictor_inv in Hpass.
    destruct Hpass as (_ & _ & _ & _ & _ & _ & _ & _ & -> & _).
    apply IH in Hrest. destruct Hrest as (blocks & -> & Hall & Hone & Hkeep).
    exists (blk :: blocks). rewrite <- app_assoc. cbn [app].
    split; [reflexivity|]. split.
    + constructor; [|exact Hall].
      unfold block_of. split; [exact Hwf|]. split; [exact Hs0|].
      split; [exact Hpos|exact Hs1].
    + split.
      * intros c [<-|Hin].
        -- destruct (in_dec string_dec cond conds) as [Hc|Hc]; [apply Hone, Hc|].
           rewrite (Hkeep _ Hc). apply dict_get_set_eq.
        -- apply Hone, Hin.
      * intros c Hc. rewrite Hkeep by (intros Hin; apply Hc; right; exact Hin).
        apply dict_get_set_ne. intros ->. apply Hc. left. reflexivity.
Qed.

Lemma np_hstack_blocks (T : nat) (arrays : list ndarray) :
  arrays <> [] ->
  Forall (fun b => well_formed b /\ shape0 b = T) arrays ->
  exists stacked,
    np_hstack arrays = Ok stacked /\
    shape0 stacked = T /\
    shape1 stacked = list_sum (map shape1 arrays) /\
    well_formed stacked /\
    rows stacked
    = map (fun i => concat (map (fun b => nth i (rows b) []) arrays)) (seq 0 T).
Proof.
  intros Hne Hall. destruct arrays as [|a rest]; [contradiction|].
  rewrite List.Forall_forall in Hall.
  assert (Ha : shape0 a = T) by (apply Hall; left; reflexivity).
  unfold np_hstack.
  replace (forallb (fun b => Nat.eqb (shape0 b) (shape0 a)) rest) with true.
  2:{ symmetry. apply forallb_forall. intros b Hb. apply Nat.eqb_eq.
      rewrite Ha. apply Hall. right. exact Hb. }
  eexists. split; [reflexivity|]. cbn [shape0 shape1 rows]. rewrite Ha.
  split; [reflexivity|]. split; [reflexivity|]. split; [|reflexivity].
  split; cbn [shape0 shape1 rows].
  - rewrite length_map, length_seq. reflexivity.
  - apply List.Forall_map. apply List.Forall_forall. intros i Hi.
    apply in_seq in Hi. rewrite length_concat, map_map. f_equal.
    apply List.map_ext_in. intros b Hb.
    destruct (Hall b Hb) as [[Hrows Hcols] Hb0].
    rewrite List.Forall_forall in Hcols. apply Hcols.
    apply nth_In. rewrite Hrows, Hb0. lia.
Qed.

Lemma blocks_total_lags (T : nat) (tmin tmax : dict Z) conds blocks :
  Forall2 (block_of T tmin tmax) conds blocks ->
  Z.of_nat (list_sum (map shape1 blocks)) = total_lags tmin tmax conds.
Proof.
  induction 1 as [|cond blk conds blocks (_ & _ & Hpos & Hs1) _ IH];
    [reflexivity|].
  change (list_sum (map shape1 (blk :: blocks)))
    with (shape1 blk + list_sum (map shape1 blocks))%nat.
  change (total_lags tmin tmax (cond :: conds))
    with (n_lags_of tmin tmax cond + total_lags tmin tmax conds).
  rewrite Nat2Z.inj_add, IH, Hs1. lia.
Qed.

(** X2. When the predictor loop returns for a non-empty list of conditions,
    [np.hstack] accepts its blocks: the stacked matrix is well formed, has
    one row per sample and as many columns as the windows of all
    conditions have lags, and the loop has stored trial count 1 for every
    condition. *)
Theorem stacked_predictors_shape extra T events event_id covariates tmin tmax
    conds cond_length pred_arrays :
  conds <> [] ->
  build_predictors extra T events event_id covariates tmin tmax conds [] []
  = Ok (cond_length, pred_arrays) ->
  length pred_arrays = length conds /\
  (forall c, In c conds -> dict_get cond_length c = Some 1%nat) /\
  exists stacked,
    np_hstack pred_arrays = Ok stacked /\
    well_formed stacked /\
    shape0 stacked = T /\
    Z.of_nat (shape1 stacked) = total_lags tmin tmax conds.
Proof.
  intros Hne Hloop. apply build_predictors_inv in Hloop.
  destruct Hloop as (blocks & -> & Hall & Hone & _). cbn [app].
  pose proof (Forall2_length _ _ _ Hall) as Hlen.
  split; [symmetry; exact Hlen|]. split; [exact Hone|].
  destruct (np_hstack_blocks T blocks) as (stacked & Hst & H0 & H1 & Hwf & _).
  - intros ->. destruct conds; [contradiction|discriminate].
  - clear Hone Hlen Hne. induction Hall as [|c b cs bs (Hwf & Hs0 & _) _ IH];
      constructor; [split; assumption|exact IH].
  - exists stacked. split; [exact Hst|]. split; [exact Hwf|].
    split; [exact H0|]. rewrite H1. apply (blocks_total_lags T), Hall.
Qed.

Lemma stacked_predictors_shape_witness :
  exists cond_length pred_arrays stacked,
    build_predictors Scenario.repaired 8 Scenario.kernel_events
      [("a", Code 1); ("b", CodeList [1; 2])] None
      [("a", 0); ("b", -1)] [("a", 2); ("b", 2)] ["a"; "b"] [] []
    = Ok (cond_length, pred_arrays) /\
    np_hstack pred_arrays = Ok stacked /\
    shape0 stacked = 8%nat /\ shape1 stacked = 5%nat.
Proof.
  eexists. eexists.
  destruct (stacked_predictors_shape Scenario.repaired 8 Scenario.kernel_events
              [("a", Code 1); ("b", CodeList [1; 2])] None
              [("a", 0); ("b", -1)] [("a", 2); ("b", 2)] ["a"; "b"] _ _
              ltac:(discriminate) eq_refl)
    as (_ & _ & stacked & Hst & _ & H0 & H1).
  exists stacked. split; [vm_compute; reflexivity|]. split; [exact Hst|].
  split; [exact H0|]. change (total_lags _ _ _) with 5 in H1. lia.
Defined.

(** ** Valid samples (lines 248-250) *)

Lemma is_nonzero_neq (x : Q) : is_nonzero x = true -> ~ (x == 0)%Q.
Proof.
  unfold is_nonzero, Qeq. cbn. intros H E.
  rewrite Z.mul_1_r in E. rewrite E in H. discriminate.
Qed.

Lemma is_nonzero_false (x : Q) : is_nonzero x = false -> (x == 0)%Q.
Proof.
  unfold is_nonzero, Qeq. cbn. intros H. apply negb_false_iff, Z.eqb_eq in H.
  rewrite H. reflexivity.
Qed.

Lemma nonzero_from_nil (a : list Q) :
  forall i, nonzero_from i a = [] <-> Forall (fun x => is_nonzero x = false) a.
Proof.
  induction a as [|x a IH]; intros i; cbn [nonzero_from].
  - split; [constructor|reflexivity].
  - destruct (is_nonzero x) eqn:E.
    + split; [discriminate|]. intros H. inversion H; congruence.
    + rewrite IH. split.
      * intros H. constructor; assumption.
      * intros H. inversion H; assumption.
Qed.

(** [len(np.nonzero(line)[0]) > 0] holds exactly for the lines with an
    entry different from zero. *)
Lemma line_has_val_iff (line : list Q) :
  line_has_val line = true <-> Exists (fun x => ~ (x == 0)%Q) line.
Proof.
  unfold line_has_val, np_nonzero. cbn [nth].
  destruct (nonzero_from 0 line) as [|k ks] eqn:E.
  - split; [discriminate|]. intros Hex. exfalso.
    apply (nonzero_from_nil line 0%nat) in E.
    rewrite List.Forall_forall in E. apply List.Exists_exists in Hex.
    destruct Hex as (x & Hx & Hne). apply Hne, is_nonzero_false, E, Hx.
  - split; [|reflexivity]. intros _.
    destruct (List.Exists_dec (fun x => is_nonzero x = true) line) as [Hex|Hno].
    + intros x. destruct (is_nonzero x); [left; reflexivity|right; discriminate].
    + apply List.Exists_exists in Hex. destruct Hex as (x & Hx & Hnz).
      apply List.Exists_exists. exists x. split; [exact Hx|].
      apply is_nonzero_neq, Hnz.
    + exfalso. assert (Hnil : nonzero_from 0 line = []).
      { apply nonzero_from_nil. apply List.Forall_forall. intros x Hx.
        destruct (is_nonzero x) eqn:Ex; [|reflexivity].
        exfalso. apply Hno. apply List.Exists_exists. exists x. split; assumption. }
      congruence.
Qed.

Lemma map_nth_seq {A B : Type} (f : A -> B) (l : list A) (d : A) :
  map (fun i => f (nth i l d)) (seq 0 (length l)) = map f l.
Proof.
  apply (nth_ext _ _ (f d) (f d)).
  - rewrite !length_map, length_seq. reflexivity.
  - intros n Hn. rewrite length_map, length_seq in Hn.
    rewrite nth_map_seq by exact Hn. symmetry. apply map_nth.
Qed.

Lemma nth_column (m : list (list Q)) (j k : nat) :
  (j < length m)%nat -> nth j (column k m) 0%Q = nth k (nth j m []) 0%Q.
Proof.
  intros Hj. unfold column.
  rewrite (nth_indep _ 0%Q (nth k [] 0%Q)) by (rewrite length_map; exact Hj).
  apply (map_nth (fun r : list Q => nth k r 0%Q)).
Qed.

Lemma transpose_well_formed (m : ndarray) :
  length (rows m) = shape0 m -> well_formed (transpose m).
Proof.
  intros Hrows. split; cbn [transpose rows shape0 shape1].
  - rewrite length_map, length_seq. reflexivity.
  - apply List.Forall_map. apply List.Forall_forall. intros j _.
    rewrite length_map. exact Hrows.
Qed.

(** [m.T.T] has the rows of [m]. *)
Lemma transpose_involutive (m : ndarray) :
  well_formed m -> rows (transpose (transpose m)) = rows m.
Proof.
  intros [Hrows Hcols]. rewrite List.Forall_forall in Hcols.
  cbn [transpose rows shape0 shape1]. rewrite <- Hrows.
  transitivity (map (fun i => nth i (rows m) []) (seq 0 (length (rows m))));
    [|rewrite (map_nth_seq (fun r : list Q => r)); apply map_id].
  apply List.map_ext_in. intros j Hj. apply in_seq in Hj.
  rewrite map_map.
  rewrite (List.map_ext_in _ (fun k => nth k (nth j (rows m) []) 0%Q)).
  - rewrite <- (Hcols (nth j (rows m) [])) by (apply nth_In; lia).
    rewrite (map_nth_seq (fun x : Q => x)). apply map_id.
  - intros k _. apply (nth_column (rows m) j k). lia.
Qed.

(** X3. The validity flags of line 249 are computed row by row on the stacked
    matrix: a sample is flagged exactly when one of its predictor entries
    differs from zero. *)
Theorem has_val_marks_nonzero_rows (stacked : ndarray) :
  well_formed stacked ->
  length (map line_has_val (rows (transpose (transpose stacked))))
  = shape0 stacked /\
  forall t,
    map line_has_val (rows (transpose (transpose stacked))) !! t = Some true <->
    exists row, rows stacked !! t = Some row /\
                Exists (fun x => ~ (x == 0)%Q) row.
Proof.
  intros Hwf. rewrite (transpose_involutive _ Hwf). split.
  - rewrite length_map. apply Hwf.
  - intros t. rewrite lookup_map_Some. split.
    + intros (row & Hrow & Hval). exists row. split; [exact Hrow|].
      apply line_has_val_iff, Hval.
    + intros (row & Hrow & Hex). exists row. split; [exact Hrow|].
      apply line_has_val_iff, Hex.
Qed.

Lemma has_val_marks_nonzero_rows_witness :
  well_formed (mk_ndarray 3 2 [[0; 0]; [0; 5]; [0; 0]]%Q) /\
  map line_has_val
    (rows (transpose (transpose (mk_ndarray 3 2 [[0; 0]; [0; 5]; [0; 0]]%Q))))
  !! 1%nat = Some true.
Proof.
  assert (Hwf : well_formed (mk_ndarray 3 2 [[0; 0]; [0; 5]; [0; 0]]%Q)).
  { split; [reflexivity|repeat constructor]. }
  split; [exact Hwf|].
  destruct (has_val_marks_nonzero_rows _ Hwf) as [_ H].
  apply (H 1%nat). exists [0; 5]%Q. split; [reflexivity|].
  right. left. intros E. discriminate E.
Defined.

(** ** Rejection (lines 253-267) *)

Lemma clear_range_lookup (mask : list bool) (t0 t1 i : nat) :
  clear_range mask t0 t1 !! i
  = (fun b => b && negb (in_segment i (t0, t1))) <$> mask !! i.
Proof.
  unfold clear_range. rewrite list_lookup_imap.
  unfold in_segment. cbn [fst snd].
  destruct ((t0 <=? i)%nat && (i <? t1)%nat);
    destruct (mask !! i) as [[]|]; reflexivity.
Qed.

Lemma clear_ranges_lookup (inds : list (nat * nat)) :
  forall (mask : list bool) (i : nat),
    fold_left (fun hv r => clear_range hv (fst r) (snd r)) inds mask !! i
    = (fun b => b && negb (existsb (in_segment i) inds)) <$> mask !! i.
Proof.
  induction inds as [|[t0 t1] inds IH]; intros mask i; cbn [fold_left existsb].
  - destruct (mask !! i) as [b|]; [|reflexivity]. cbn. rewrite andb_true_r.
    reflexivity.
  - rewrite IH. cbn [fst snd]. rewrite clear_range_lookup.
    destruct (mask !! i) as [b|]; [|reflexivity]. cbn. f_equal.
    destruct b, (in_segment i (t0, t1)), (existsb (in_segment i) inds);
      reflexivity.
Qed.

Lemma clear_ranges_length (inds : list (nat * nat)) :
  forall mask : list bool,
    length (fold_left (fun hv r => clear_range hv (fst r) (snd r)) inds mask)
    = length mask.
Proof.
  induction inds as [|r inds IH]; intros mask; [reflexivity|].
  cbn [fold_left]. rewrite IH. unfold clear_range. apply length_imap.
Qed.

(** X4. With [reject] other than [None] the rejection step returns: the
    detector is called with the given thresholds, or with the default ones
    for any non-dict value ([False] included), and with window length 1.0
    when [tstep] is [None]; a sample stays valid exactly when it was valid
    and lies in none of the returned ranges. *)
Theorem rejection_only_clears_ranges detect data reject tstep has_val :
  reject <> RejectNone ->
  exists out,
    apply_rejection detect data reject tstep has_val = Ok out /\
    length out = length has_val /\
    forall i,
      out !! i
      = (fun b =>
           b && negb (existsb (in_segment i)
                        (detect data
                           (match reject with
                            | RejectDict d => d
                            | _ => default_reject
                            end)
                           (default 1%Q tstep))))
        <$> has_val !! i.
Proof.
  intros Hrej. unfold apply_rejection.
  destruct reject as [|b|d]; [contradiction| |]; cbn [rejection_setup];
    (eexists; split; [reflexivity|]; split;
     [apply clear_ranges_length|intros i; apply clear_ranges_lookup]).
Qed.

Lemma rejection_only_clears_ranges_witness :
  RejectFlag false <> RejectNone /\
  exists out,
    apply_rejection (fun _ _ ts => [(1, 3)]%nat) Scenario.kernel_Y
      (RejectFlag false) None [true; true; true; true] = Ok out /\
    out !! 2%nat = Some false /\ out !! 3%nat = Some true.
Proof.
  split; [discriminate|].
  destruct (rejection_only_clears_ranges (fun _ _ ts => [(1, 3)]%nat)
              Scenario.kernel_Y (RejectFlag false) None [true; true; true; true])
    as (out & Hout & _ & Hlook); [discriminate|].
  exists out. split; [exact Hout|].
  split; [exact (Hlook 2%nat)|exact (Hlook 3%nat)].
Defined.

(** ** Design matrix and targets (lines 269-272) *)

Lemma compress_map {A B : Type} (f : A -> B) (mask : list bool) (l : list A) :
  compress mask (map f l) = map f (compress mask l).
Proof.
  revert l. induction mask as [|b mask IH]; intros l; [reflexivity|].
  destruct l as [|x l]; [reflexivity|]. cbn. rewrite IH.
  destruct b; reflexivity.
Qed.

Lemma compress_length {A : Type} (mask : list bool) (l : list A) :
  length mask = length l -> length (compress mask l) = count_true mask.
Proof.
  revert l. induction mask as [|b mask IH]; intros l Hlen; [reflexivity|].
  destruct l as [|x l]; [discriminate|]. cbn in Hlen.
  unfold count_true. cbn [compress List.filter]. destruct b; cbn [length].
  - f_equal. apply IH. lia.
  - apply IH. lia.
Qed.

Lemma compress_In {A : Type} (mask : list bool) (l : list A) (x : A) :
  In x (compress mask l) -> In x l.
Proof.
  revert l. induction mask as [|b mask IH]; intros l; [intros []|].
  destruct l as [|y l]; [intros []|]. cbn [compress].
  destruct b; [intros [<-|H]; [left; reflexivity|right; apply IH, H]|].
  intros H. right. apply IH, H.
Qed.

Lemma nth_np_ones (n i : nat) : (i < n)%nat -> nth i (np_ones n) 0%Q = 1%Q.
Proof.
  intros Hi. rewrite nth_lookup. unfold np_ones.
  rewrite lookup_replicate_2 by exact Hi. reflexivity.
Qed.

(** X5. Lines 269-272 on a well-formed stacked matrix and a mask with one flag
    per sample: the selections succeed, the design matrix [X] consists of
    the stacked rows of the flagged samples, in order, each followed by the
    intercept entry 1 (so the intercept is its last column), and [Y] keeps
    the same samples of every channel. *)
Theorem design_matrix_rows (stacked data : ndarray) (has_val : list bool) :
  well_formed stacked ->
  length has_val = shape0 stacked ->
  shape1 data = shape0 stacked ->
  exists X0 X1 Y,
    select_columns (transpose stacked) has_val = Ok X0 /\
    np_vstack X0 (np_ones (shape1 X0)) = Ok X1 /\
    select_columns data has_val = Ok Y /\
    rows (transpose X1)
    = map (fun r : list Q => (r ++ [1%Q])%list) (compress has_val (rows stacked)) /\
    shape0 (transpose X1) = count_true has_val /\
    shape1 (transpose X1) = S (shape1 stacked) /\
    well_formed (transpose X1) /\
    rows Y = map (compress has_val) (rows data) /\
    shape1 Y = count_true has_val.
Proof.
  intros [Hrows Hcols] Hmask Hdata.
  unfold select_columns. cbn [transpose shape0 shape1 rows].
  rewrite Hmask, Hdata, Nat.eqb_refl.
  unfold np_vstack.
  do 3 eexists. split; [reflexivity|]. cbn [shape0 shape1 rows].
  split.
  { unfold np_ones at 1. rewrite length_replicate, Nat.eqb_refl. reflexivity. }
  split; [reflexivity|]. cbn [transpose shape0 shape1 rows].
  assert (Hlen : length (compress has_val (rows stacked)) = count_true has_val).
  { apply compress_length. congruence. }
  split; [|split; [reflexivity|split; [reflexivity|split; [|split; reflexivity]]]].
  - rewrite <- Hlen.
    rewrite <- (map_nth_seq (fun r : list Q => (r ++ [1%Q])%list)
                  (compress has_val (rows stacked)) []).
    apply List.map_ext_in. intros i Hi. apply in_seq in Hi.
    rewrite map_app. cbn [map]. rewrite Hlen in Hi.
    rewrite nth_np_ones by lia. f_equal.
    rewrite !map_map.
    rewrite (List.map_ext _
               (fun j => nth j (nth i (compress has_val (rows stacked)) []) 0%Q)).
    + rewrite List.Forall_forall in Hcols.
      rewrite <- (Hcols (nth i (compress has_val (rows stacked)) [])).
      * rewrite (map_nth_seq (fun x : Q => x)). apply map_id.
      * apply (compress_In has_val). apply nth_In. lia.
    + intros j.
      change (map (fun r : list Q => nth j r 0%Q) (rows stacked))
        with (column j (rows stacked)).
      unfold column. rewrite compress_map.
      apply (nth_column (compress has_val (rows stacked)) i j). lia.
  - apply transpose_well_formed. cbn [rows shape0].
    rewrite length_app, !length_map, length_seq. cbn. lia.
Qed.

Lemma design_matrix_rows_witness :
  exists X0 X1 Y,
    select_columns
      (transpose (mk_ndarray 3 2 [[0; 0]; [0; 5]; [7; 0]]%Q))
      [false; true; true] = Ok X0 /\
    np_vstack X0 (np_ones (shape1 X0)) = Ok X1 /\
    select_columns (mk_ndarray 1 3 [[1; 2; 3]%Q]) [false; true; true] = Ok Y /\
    rows (transpose X1) = [[0; 5; 1]; [7; 0; 1]]%Q.
Proof.
  destruct (design_matrix_rows (mk_ndarray 3 2 [[0; 0]; [0; 5]; [7; 0]]%Q)
              (mk_ndarray 1 3 [[1; 2; 3]%Q]) [false; true; true])
    as (X0 & X1 & Y & H0 & H1 & HY & Hr & _).
  - split; [reflexivity|repeat constructor].
  - reflexivity.
  - reflexivity.
  - exists X0, X1, Y. split; [exact H0|]. split; [exact H1|].
    split; [exact HY|exact Hr].
Defined.

(** ** Response reconstruction (lines 279-287) *)

Lemma dict_get_None_keys {V : Type} (d : dict V) (k : string) :
  dict_get d k = None <-> ~ In k (keys d).
Proof.
  induction d as [|[k' v'] d IH]; cbn.
  - split; [intros _ []|reflexivity].
  - destruct (String.eqb_spec k k') as [->|Hne].
    + split; [discriminate|]. intros H. exfalso. apply H. left. reflexivity.
    + rewrite IH. split.
      * intros H [E|Hin]; [congruence|contradiction].
      * intros H Hin. apply H. right. exact Hin.
Qed.

Lemma keys_dict_set_new {V : Type} (d : dict V) (k : string) (v : V) :
  ~ In k (keys d) -> keys (dict_set d k v) = (keys d ++ [k])%list.
Proof.
  induction d as [|[k' v'] d IH]; cbn; intros Hk; [reflexivity|].
  destruct (String.eqb_spec k k') as [->|Hne].
  - exfalso. apply Hk. left. reflexivity.
  - cbn. f_equal. apply IH. intros Hin. apply Hk. right. exact Hin.
Qed.

Lemma last_occurrence (c : string) (l : list string) :
  In c l -> exists pre post, l = (pre ++ c :: post)%list /\ ~ In c post.
Proof.
  induction l as [|x l IH]; intros Hin; [destruct Hin|].
  destruct (in_dec string_dec c l) as [Hl|Hl].
  - destruct (IH Hl) as (pre & post & -> & Hpost).
    exists (x :: pre), post. split; [reflexivity|exact Hpost].
  - destruct Hin as [->|Hin]; [|contradiction].
    exists [], l. split; [reflexivity|exact Hl].
Qed.

(** [tmin_ / sfreq], when it does not raise, is the binary64 quotient. *)
Lemma int_div_float_ok (z : Z) (y q : float) :
  int_div_float z y = Ok q ->
  q = float_div (to_float z) y /\ is_zero y = false.
Proof.
  unfold int_div_float, float_of_int.
  destruct (is_finite (to_float z)); [|discriminate]. cbn [bind].
  destruct (is_zero y); [discriminate|].
  intros [= <-]. split; reflexivity.
Qed.

(** One pass of the reconstruction loop that does not raise. *)
Lemma build_evoked_step extra c conds tmin tmax cl coefs sfreq cum ev0 ev :
  build_evoked extra (c :: conds) tmin tmax cl coefs sfreq cum ev0 = Ok ev ->
  exists a b n,
    dict_get tmin c = Some a /\
    dict_get tmax c = Some b /\
    bound (namespace extra) "mne" = true /\
    is_zero sfreq = false /\
    dict_get cl c = Some n /\
    build_evoked extra conds tmin tmax cl coefs sfreq (cum + b - a)
      (dict_set ev0 c
         (mk_EvokedArray
            (slice_columns coefs (Z.to_nat cum) (Z.to_nat (cum + b - a)))
            sfreq (float_div (to_float a) sfreq) c n "mean"))
    = Ok ev.
Proof.
  cbn [build_evoked]. unfold dict_item, resolve.
  destruct (dict_get tmin c) as [a|]; [|discriminate]. cbn [bind].
  destruct (dict_get tmax c) as [b|]; [|discriminate]. cbn [bind].
  destruct (bound (namespace extra) "mne"); [|discriminate]. cbn [bind].
  destruct (int_div_float a sfreq) as [q|] eqn:Eq; [|discriminate].
  apply int_div_float_ok in Eq. destruct Eq as [-> Hz]. cbn [bind].
  destruct (dict_get cl c) as [n|]; [|discriminate]. cbn [bind].
  intros H. exists a, b, n. repeat split; try reflexivity; assumption.
Qed.

Lemma build_evoked_other extra tmin tmax cl coefs sfreq :
  forall conds cum ev0 ev c,
    build_evoked extra conds tmin tmax cl coefs sfreq cum ev0 = Ok ev ->
    ~ In c conds -> dict_get ev c = dict_get ev0 c.
Proof.
  induction conds as [|c0 conds IH]; intros cum ev0 ev c H Hc.
  - cbn in H. injection H as <-. reflexivity.
  - apply build_evoked_step in H.
    destruct H as (a & b & n & _ & _ & _ & _ & _ & H).
    rewrite (IH _ _ _ c H) by (intros Hin; apply Hc; right; exact Hin).
    apply dict_get_set_ne. intros ->. apply Hc. left. reflexivity.
Qed.

Lemma build_evoked_keys extra tmin tmax cl coefs sfreq :
  forall conds cum ev0 ev,
    build_evoked extra conds tmin tmax cl coefs sfreq cum ev0 = Ok ev ->
    List.NoDup conds ->
    (forall c, In c conds -> ~ In c (keys ev0)) ->
    keys ev = (keys ev0 ++ conds)%list.
Proof.
  induction conds as [|c0 conds IH]; intros cum ev0 ev H Hnd Hfresh.
  - cbn in H. injection H as <-. rewrite app_nil_r. reflexivity.
  - apply build_evoked_step in H.
    destruct H as (a & b & n & _ & _ & _ & _ & _ & H).
    inversion Hnd as [|? ? Hc0 Hnd']; subst.
    rewrite (IH _ _ _ H Hnd').
    + rewrite keys_dict_set_new by (apply Hfresh; left; reflexivity).
      rewrite <- app_assoc. reflexivity.
    + intros c Hc. rewrite keys_dict_set_new by (apply Hfresh; left; reflexivity).
      intros Hin. apply in_app_or in Hin. destruct Hin as [Hin|[<-|[]]].
      * apply (Hfresh c); [right; exact Hc|exact Hin].
      * exact (Hc0 Hc).
Qed.

Lemma build_evoked_entry extra tmin tmax cl coefs sfreq :
  forall pre c post cum ev0 ev,
    build_evoked extra (pre ++ c :: post) tmin tmax cl coefs sfreq cum ev0
    = Ok ev ->
    ~ In c post ->
    exists a b n,
      dict_get tmin c = Some a /\
      dict_get tmax c = Some b /\
      dict_get cl c = Some n /\
      dict_get ev c
      = Some (mk_EvokedArray
                (slice_columns coefs
                   (Z.to_nat (cum + total_lags tmin tmax pre))
                   (Z.to_nat (cum + total_lags tmin tmax pre + b - a)))
                sfreq (float_div (to_float a) sfreq) c n "mean").
Proof.
  induction pre as [|c0 pre IH]; intros c post cum ev0 ev H Hpost.
  - cbn [app] in H. apply build_evoked_step in H.
    destruct H as (a & b & n & Ha & Hb & _ & _ & Hn & H).
    exists a, b, n. split; [exact Ha|]. split; [exact Hb|]. split; [exact Hn|].
    rewrite (build_evoked_other _ _ _ _ _ _ _ _ _ _ c H Hpost).
    rewrite dict_get_set_eq. cbn [total_lags fold_right].
    rewrite Z.add_0_r. reflexivity.
  - cbn [app] in H. apply build_evoked_step in H.
    destruct H as (a0 & b0 & n0 & Ha0 & Hb0 & _ & _ & _ & H).
    destruct (IH _ _ _ _ _ H Hpost) as (a & b & n & Ha & Hb & Hn & He).
    exists a, b, n. split; [exact Ha|]. split; [exact Hb|]. split; [exact Hn|].
    rewrite He. do 3 f_equal.
    + change (total_lags tmin tmax (c0 :: pre))
        with (n_lags_of tmin tmax c0 + total_lags tmin tmax pre).
      unfold n_lags_of at 1. rewrite Ha0, Hb0. f_equal. lia.
    + change (total_lags tmin tmax (c0 :: pre))
        with (n_lags_of tmin tmax c0 + total_lags tmin tmax pre).
      unfold n_lags_of at 1. rewrite Ha0, Hb0. f_equal. lia.
Qed.

(** X6. When the reconstruction loop returns for pairwise distinct conditions,
    the mapping has exactly the conditions as keys, in their order, and the
    response of each carries its label, kind "mean", the stored trial
    count, the offset [tmin_ / sfreq] (the binary64 quotient), and the
    coefficient columns that start where the windows of the preceding
    conditions end. *)
Theorem responses_follow_conditions extra conds tmin tmax cl coefs sfreq ev :
  List.NoDup conds ->
  build_evoked extra conds tmin tmax cl coefs sfreq 0 [] = Ok ev ->
  keys ev = conds /\
  forall pre c post,
    conds = (pre ++ c :: post)%list ->
    exists a b n e,
      dict_get tmin c = Some a /\
      dict_get tmax c = Some b /\
      dict_get cl c = Some n /\
      dict_get ev c = Some e /\
      ev_comment e = c /\ ev_kind e = "mean" /\ ev_nave e = n /\
      ev_sfreq e = sfreq /\
      ev_tmin e = float_div (to_float a) sfreq /\
      ev_data e
      = slice_columns coefs (Z.to_nat (total_lags tmin tmax pre))
          (Z.to_nat (total_lags tmin tmax pre + b - a)).
Proof.
  intros Hnd H. split.
  - apply (build_evoked_keys _ _ _ _ _ _ _ _ _ _ H Hnd). intros c _ [].
  - intros pre c post ->.
    assert (Hpost : ~ In c post).
    { apply List.NoDup_remove_2 in Hnd. intros Hin. apply Hnd.
      apply in_or_app. right. exact Hin. }
    destruct (build_evoked_entry _ _ _ _ _ _ _ _ _ _ _ _ H Hpost)
      as (a & b & n & Ha & Hb & Hn & He).
    exists a, b, n. eexists. split; [exact Ha|]. split; [exact Hb|].
    split; [exact Hn|]. split; [exact He|]. cbn.
    repeat split; reflexivity.
Qed.

Lemma responses_follow_conditions_witness :
  exists ev e,
    build_evoked Scenario.repaired ["a"; "b"] [("a", -1); ("b", 0)]
      [("a", 1); ("b", 1)] [("a", 1%nat); ("b", 1%nat)]
      (mk_ndarray 1 4 [[5; 6; 7; 8]%Q]) (to_float 2) 0 [] = Ok ev /\
    keys ev = ["a"; "b"] /\
    dict_get ev "b" = Some e /\
    rows (ev_data e) = [[7]%Q] /\ ev_tmin e = to_float 0.
Proof.
  eexists.
  destruct (responses_follow_conditions Scenario.repaired ["a"; "b"]
              [("a", -1); ("b", 0)] [("a", 1); ("b", 1)]
              [("a", 1%nat); ("b", 1%nat)]
              (mk_ndarray 1 4 [[5; 6; 7; 8]%Q]) (to_float 2) _
              ltac:(repeat constructor; cbn; intuition discriminate)
              eq_refl)
    as [Hkeys Hentry].
  destruct (Hentry ["a"] "b" [] eq_refl)
    as (a & b & n & e & Ha & Hb & _ & He & _ & _ & _ & _ & Ht & Hd).
  injection Ha as <-. injection Hb as <-.
  exists e. split; [vm_compute; reflexivity|]. split; [exact Hkeys|].
  split; [exact He|]. split; [rewrite Hd; reflexivity|].
  rewrite Ht. reflexivity.
Defined.

(** ** Shapes through the solve (lines 269-276) *)

Lemma gauss_jordan_length (cols : list nat) :
  forall done todo rs,
    gauss_jordan cols done todo = Some rs ->
    length rs = (length done + length cols)%nat.
Proof.
  induction cols as [|j cols IH]; intros done todo rs.
  - cbn. intros [= <-]. lia.
  - cbn [gauss_jordan]. destruct (find_pivot j todo) as [[p rest]|]; [|discriminate].
    intros H. apply IH in H. rewrite H, length_app, length_map. cbn. lia.
Qed.

Lemma inv_shape (m n : ndarray) :
  inv m = Ok n ->
  shape0 n = shape0 m /\ shape1 n = shape0 m /\ length (rows n) = shape0 m.
Proof.
  unfold inv. destruct (negb (Nat.eqb (shape0 m) (shape1 m))); [discriminate|].
  destruct (gauss_jordan _ _ _) as [rs|] eqn:E; [|discriminate].
  intros [= <-]. cbn [shape0 shape1 rows]. repeat split.
  rewrite length_map. apply gauss_jordan_length in E.
  rewrite E, length_seq. reflexivity.
Qed.

Lemma np_dot_shape (a b c : ndarray) :
  np_dot a b = Ok c ->
  shape1 a = shape0 b /\ shape0 c = shape0 a /\ shape1 c = shape1 b /\
  length (rows c) = length (rows a).
Proof.
  unfold np_dot. destruct (Nat.eqb_spec (shape1 a) (shape0 b)); [|discriminate].
  intros [= <-]. cbn [shape0 shape1 rows]. repeat split; try assumption.
  unfold mat_mul. apply length_map.
Qed.

Lemma select_columns_shape (m x : ndarray) (mask : list bool) :
  select_columns m mask = Ok x ->
  length mask = shape1 m /\ shape0 x = shape0 m /\ shape1 x = count_true mask.
Proof.
  unfold select_columns.
  destruct (Nat.eqb_spec (length mask) (shape1 m)); [|discriminate].
  intros [= <-]. repeat split. assumption.
Qed.

Lemma np_vstack_shape (m x : ndarray) (v : list Q) :
  np_vstack m v = Ok x -> shape0 x = S (shape0 m) /\ shape1 x = shape1 m.
Proof.
  unfold np_vstack. destruct (Nat.eqb (length v) (shape1 m)); [|discriminate].
  intros [= <-]. split; reflexivity.
Qed.

(** The coefficient matrix has one row per channel of [Y] and one column
    per column of the design matrix. *)
Lemma solve_shape extra (X Y coefs : ndarray) :
  solve extra X Y = Ok coefs ->
  bound (namespace extra) "scipy" = true /\
  well_formed coefs /\
  shape0 coefs = shape0 Y /\
  shape1 coefs = shape1 X.
Proof.
  unfold solve, resolve.
  destruct (bound (namespace extra) "scipy"); [|discriminate]. cbn [bind].
  destruct (np_dot (transpose X) X) as [xtx|] eqn:E1; [|discriminate].
  cbn [bind]. destruct (inv xtx) as [xtx_inv|] eqn:E2; [|discriminate].
  cbn [bind].
  destruct (np_dot (transpose X) (transpose Y)) as [xty|] eqn:E3; [|discriminate].
  cbn [bind]. destruct (np_dot xtx_inv xty) as [b|] eqn:E4; [|discriminate].
  cbn [bind]. intros [= <-].
  apply np_dot_shape in E1, E3, E4. apply inv_shape in E2.
  destruct E1 as (_ & H10 & H11 & _). destruct E2 as (H20 & H21 & H2r).
  destruct E3 as (_ & H30 & H31 & _). destruct E4 as (_ & H40 & H41 & H4r).
  cbn [transpose shape0 shape1] in *.
  split; [reflexivity|]. split.
  - apply transpose_well_formed. congruence.
  - split; congruence.
Qed.

Lemma slice_columns_well_formed (m : ndarray) (a b : nat) :
  well_formed m -> well_formed (slice_columns m a b).
Proof.
  intros [Hrows Hcols]. split; cbn [slice_columns rows shape0 shape1].
  - rewrite length_map. exact Hrows.
  - apply List.Forall_map. revert Hcols. apply List.Forall_impl.
    intros r Hr. rewrite length_firstn, length_skipn, Hr. lia.
Qed.

Lemma total_lags_app (tmin tmax : dict Z) (l1 l2 : list string) :
  total_lags tmin tmax (l1 ++ l2)
  = total_lags tmin tmax l1 + total_lags tmin tmax l2.
Proof.
  induction l1 as [|c l1 IH]; [reflexivity|].
  change (total_lags tmin tmax ((c :: l1) ++ l2))
    with (n_lags_of tmin tmax c + total_lags tmin tmax (l1 ++ l2)).
  change (total_lags tmin tmax (c :: l1))
    with (n_lags_of tmin tmax c + total_lags tmin tmax l1).
  rewrite IH. lia.
Qed.

Lemma total_lags_nonneg (tmin tmax : dict Z) (l : list string) :
  (forall c, In c l -> 0 <= n_lags_of tmin tmax c) ->
  0 <= total_lags tmin tmax l.
Proof.
  induction l as [|c l IH]; intros H; [reflexivity|].
  change (total_lags tmin tmax (c :: l))
    with (n_lags_of tmin tmax c + total_lags tmin tmax l).
  pose proof (H c (or_introl eq_refl)).
  assert (0 <= total_lags tmin tmax l) by (apply IH; intros; apply H; right; assumption).
  lia.
Qed.

Lemma blocks_nonneg (T : nat) (tmin tmax : dict Z) conds blocks :
  Forall2 (block_of T tmin tmax) conds blocks ->
  forall c, In c conds -> 0 <= n_lags_of tmin tmax c.
Proof.
  induction 1 as [|cond blk conds blocks (_ & _ & Hpos & _) _ IH];
    intros c Hc; [destruct Hc|].
  destruct Hc as [<-|Hc]; [exact Hpos|apply IH, Hc].
Qed.

Lemma apply_rejection_inv detect data reject tstep has_val out :
  apply_rejection detect data reject tstep has_val = Ok out ->
  reject <> RejectNone /\ length out = length has_val.
Proof.
  unfold apply_rejection.
  destruct reject as [|b|d]; cbn [rejection_setup]; [discriminate| |];
    intros [= <-]; (split; [discriminate|apply clear_ranges_length]).
Qed.

(** ** What a returned mapping looks like *)

(** X7. Whenever a call returns: [event_id] was given, the windows resolved,
    there is at least one condition, rejection was not disabled and both
    [scipy] and [mne] resolve.  The mapping has an entry for every
    condition and for nothing else (the conditions in their order when they
    are pairwise distinct); each response is a well-formed matrix with one
    row per channel and one column per lag of its window, labelled with
    the condition, of kind "mean", with offset [tmin_ / sfreq] - and with
    trial count 1, however many events the condition has. *)
Theorem returned_mapping detect extra raw events event_id tmin tmax covariates
    reject tstep ev :
  regress_continuous detect extra raw events event_id tmin tmax covariates
    reject tstep = Ok ev ->
  exists eid tmin' tmax',
    event_id = Some eid /\
    resolve_windows tmin tmax (info_sfreq raw) (conds_of eid covariates)
      (keys eid) = Ok (tmin', tmax') /\
    conds_of eid covariates <> [] /\
    reject <> RejectNone /\
    bound (namespace extra) "scipy" = true /\
    bound (namespace extra) "mne" = true /\
    (List.NoDup (conds_of eid covariates) -> keys ev = conds_of eid covariates) /\
    (forall c, In c (conds_of eid covariates) -> exists e, dict_get ev c = Some e) /\
    forall c e,
      dict_get ev c = Some e ->
      In c (conds_of eid covariates) /\
      ev_comment e = c /\ ev_kind e = "mean" /\ ev_nave e = 1%nat /\
      well_formed (ev_data e) /\
      shape0 (ev_data e) = shape0 (raw_data raw) /\
      Z.of_nat (shape1 (ev_data e)) = n_lags_of tmin' tmax' c /\
      exists a, dict_get tmin' c = Some a /\
                ev_tmin e = float_div (to_float a) (info_sfreq raw).
Proof.
  intros H. unfold regress_continuous in H. cbv zeta in H.
  destruct event_id as [eid|]; [|discriminate]. cbn [bind] in H.
  fold (conds_of eid covariates) in H.
  cbn [raw_getitem fst snd] in H.
  remember (conds_of eid covariates) as conds eqn:Hconds.
  destruct (resolve_windows tmin tmax (info_sfreq raw) conds (keys eid))
    as [[tmin' tmax']|] eqn:Ew; [|discriminate]. cbn [bind fst snd] in H.
  destruct (build_predictors _ _ _ _ _ _ _ _ _ _) as [[cl pa]|] eqn:Ep;
    [|discriminate]. cbn [bind fst snd] in H.
  destruct (np_hstack pa) as [stacked|] eqn:Eh; [|discriminate].
  cbn [bind] in H.
  destruct (apply_rejection _ _ _ _ _) as [hv|] eqn:Er; [|discriminate].
  cbn [bind] in H.
  destruct (select_columns (transpose stacked) hv) as [X0|] eqn:Ex0;
    [|discriminate]. cbn [bind] in H.
  destruct (np_vstack X0 _) as [X1|] eqn:Ex1; [|discriminate]. cbn [bind] in H.
  destruct (select_columns (raw_data raw) hv) as [Y|] eqn:Ey; [|discriminate].
  cbn [bind] in H.
  destruct (solve extra (transpose X1) Y) as [coefs|] eqn:Es; [|discriminate].
  cbn [bind] in H.
  apply build_predictors_inv in Ep.
  destruct Ep as (blocks & Hpa & Hall & Hone & _). cbn [app] in Hpa. subst pa.
  assert (Hne : conds <> []).
  { intros ->. inversion Hall; subst. discriminate Eh. }
  assert (Hblocks : blocks <> []).
  { intros ->. inversion Hall. congruence. }
  destruct (np_hstack_blocks
              (length (map (fun i => float_div (to_float (Z.of_nat i))
                                               (info_sfreq raw))
                           (seq 0 (shape1 (raw_data raw))))) blocks Hblocks)
    as (stacked' & Hst & _ & Hs1 & _ & _).
  { clear -Hall. induction Hall as [|c b cs bs (Hwf & Hs0 & _) _ IH];
      constructor; [split; assumption|exact IH]. }
  rewrite Eh in Hst. injection Hst as <-.
  pose proof (blocks_total_lags _ _ _ _ _ Hall) as Htotal.
  rewrite <- Hs1 in Htotal.
  pose proof (blocks_nonneg _ _ _ _ _ Hall) as Hpos.
  apply apply_rejection_inv in Er. destruct Er as [Hrej _].
  apply select_columns_shape in Ex0, Ey.
  destruct Ex0 as (_ & Hx00 & _). destruct Ey as (_ & Hy0 & _).
  apply np_vstack_shape in Ex1. destruct Ex1 as [Hx10 _].
  apply solve_shape in Es. destruct Es as (Hscipy & Hcwf & Hc0 & Hc1).
  cbn [transpose shape0 shape1] in Hx00, Hc1.
  assert (Hmne : bound (namespace extra) "mne" = true).
  { destruct conds as [|c0 conds']; [contradiction|].
    apply build_evoked_step in H.
    destruct H as (_ & _ & _ & _ & _ & Hm & _). exact Hm. }
  exists eid, tmin', tmax'. rewrite <- Hconds.
  split; [reflexivity|]. split; [exact Ew|]. split; [exact Hne|].
  split; [exact Hrej|]. split; [exact Hscipy|]. split; [exact Hmne|].
  split; [|split].
  - intros Hnd. apply (build_evoked_keys _ _ _ _ _ _ _ _ _ _ H Hnd).
    intros c _ [].
  - intros c Hc. destruct (last_occurrence c conds Hc) as (pre & post & Hsplit & Hpost).
    rewrite Hsplit in H.
    destruct (build_evoked_entry _ _ _ _ _ _ _ _ _ _ _ _ H Hpost)
      as (a & b & n & _ & _ & _ & He).
    eexists. exact He.
  - intros c e He.
    assert (Hc : In c conds).
    { destruct (in_dec string_dec c conds) as [Hc|Hc]; [exact Hc|].
      rewrite (build_evoked_other _ _ _ _ _ _ _ _ _ _ c H Hc) in He.
      discriminate He. }
    split; [exact Hc|].
    destruct (last_occurrence c conds Hc) as (pre & post & Hsplit & Hpost).
    pose proof H as H'. rewrite Hsplit in H'.
    destruct (build_evoked_entry _ _ _ _ _ _ _ _ _ _ _ _ H' Hpost)
      as (a & b & n & Ha & Hb & Hn & He').
    rewrite He in He'. injection He' as ->.
    cbn [ev_comment ev_kind ev_nave ev_data ev_tmin].
    split; [reflexivity|]. split; [reflexivity|].
    split; [rewrite (Hone c Hc) in Hn; congruence|].
    split; [apply slice_columns_well_formed, Hcwf|].
    split; [cbn [slice_columns shape0]; congruence|].
    split.
    + cbn [slice_columns shape1]. unfold n_lags_of. rewrite Ha, Hb.
      assert (Hpre : 0 <= total_lags tmin' tmax' pre).
      { apply total_lags_nonneg. intros x Hx. apply Hpos. rewrite Hsplit.
        apply in_or_app. left. exact Hx. }
      assert (Hpost' : 0 <= total_lags tmin' tmax' post).
      { apply total_lags_nonneg. intros x Hx. apply Hpos. rewrite Hsplit.
        apply in_or_app. right. right. exact Hx. }
      pose proof (Hpos c Hc) as Hcpos. unfold n_lags_of in Hcpos.
      rewrite Ha, Hb in Hcpos.
      rewrite Hsplit, total_lags_app in Htotal.
      change (total_lags tmin' tmax' (c :: post))
        with (n_lags_of tmin' tmax' c + total_lags tmin' tmax' post) in Htotal.
      unfold n_lags_of in Htotal. rewrite Ha, Hb in Htotal.
      rewrite Hc1, Hx10, Hx00. lia.
    + exists a. split; [exact Ha|]. reflexivity.
Qed.

Lemma returned_mapping_witness :
  exists ev e,
    regress_continuous Scenario.no_segments Scenario.repaired Scenario.slope_raw
      Scenario.slope_events (Some []) (Seconds (Int 0))
      (PerCondition [("c", Some (Int 2))])
      (Some Scenario.slope_covariates) (RejectFlag true) None = Ok ev /\
    dict_get ev "c" = Some e /\
    ev_nave e = 1%nat /\ shape0 (ev_data e) = 1%nat /\ shape1 (ev_data e) = 2%nat.
Proof.
  eexists.
  destruct (returned_mapping Scenario.no_segments Scenario.repaired
              Scenario.slope_raw Scenario.slope_events (Some []) (Seconds (Int 0))
              (PerCondition [("c", Some (Int 2))]) (Some Scenario.slope_covariates)
              (RejectFlag true) None _ ltac:(vm_compute; reflexivity))
    as (eid & tmin' & tmax' & Heid & Hw & _ & _ & _ & _ & _ & Hex & Hent).
  injection Heid as <-. vm_compute in Hw. injection Hw as <- <-.
  destruct (Hex "c") as [e He]; [left; reflexivity|].
  destruct (Hent "c" e He) as (_ & _ & _ & Hn & _ & H0 & H1 & _).
  exists e. split; [vm_compute; reflexivity|]. split; [exact He|].
  split; [exact Hn|]. split; [exact H0|].
  change (n_lags_of _ _ _) with 2 in H1. lia.
Defined.

(** ** Errors of the first pass, whatever names are bound *)

Lemma times_length (raw : Raw) :
  length (snd (raw_getitem raw)) = shape1 (raw_data raw).
Proof. cbn. rewrite length_map, length_seq. reflexivity. Qed.

(** An error of the window resolution is the error of the call. *)
Lemma window_error_is_call_error detect extra raw events eid tmin tmax
    covariates reject tstep e :
  resolve_windows tmin tmax (info_sfreq raw) (conds_of eid covariates) (keys eid)
  = Err e ->
  regress_continuous detect extra raw events (Some eid) tmin tmax covariates
    reject tstep = Err e.
Proof.
  intros Hw. unfold regress_continuous. cbv zeta. cbn [bind].
  fold (conds_of eid covariates). rewrite Hw. reflexivity.
Qed.

(** An error of the first pass of the predictor loop is the error of the
    call. *)
Lemma first_pass_error_is_call_error detect extra raw events eid tmin tmax
    covariates reject tstep tmin' tmax' c rest e :
  conds_of eid covariates = c :: rest ->
  resolve_windows tmin tmax (info_sfreq raw) (conds_of eid covariates) (keys eid)
  = Ok (tmin', tmax') ->
  build_predictor extra (shape1 (raw_data raw)) events eid covariates
    tmin' tmax' c = Err e ->
  regress_continuous detect extra raw events (Some eid) tmin tmax covariates
    reject tstep = Err e.
Proof.
  intros Hc Hw Hp. unfold regress_continuous. cbv zeta. cbn [bind].
  fold (conds_of eid covariates). rewrite Hw. cbn [bind fst snd].
  rewrite times_length, Hc. cbn [build_predictors]. rewrite Hp. reflexivity.
Qed.

Lemma dict_get_map_head {V : Type} (f : string -> V) (c : string) (l : list string) :
  dict_get (map (fun k => (k, f k)) (c :: l)) c = Some (f c).
Proof. cbn. rewrite String.eqb_refl. reflexivity. Qed.

(** X8. With no binary condition and a scalar [tmax] (the default [tmax=1]
    included), a call with covariates raises [KeyError] for the first
    covariate: the scalar is spread over the keys of [event_id] only. *)
Theorem covariates_need_tmax_mapping detect extra raw events tmin s
    c cov covs reject tstep :
  resolvable tmin default_tmin (info_sfreq raw) (c :: keys covs) ->
  regress_continuous detect extra raw events (Some []) tmin (Seconds s)
    (Some ((c, cov) :: covs)) reject tstep
  = Err (KeyError c).
Proof.
  intros Hn.
  eapply (first_pass_error_is_call_error _ _ _ _ [] _ _ _ _ _ _ _ c (keys covs)).
  - reflexivity.
  - apply resolve_windows_numeric; [exact Hn|].
    split; [exact I|intros x []].
  - unfold build_predictor, dict_item.
    change (conds_of [] (Some ((c, cov) :: covs))) with (c :: keys covs).
    rewrite dict_get_map_head. reflexivity.
Qed.

Lemma covariates_need_tmax_mapping_witness :
  resolvable (Seconds (Int 0)) default_tmin (to_float 1) ["c"] /\
  regress_continuous Scenario.no_segments Scenario.repaired Scenario.slope_raw
    Scenario.slope_events (Some []) (Seconds (Int 0)) (Seconds (Int 1))
    (Some [("c", [2; 3; 5]%Q)]) (RejectFlag true) None
  = Err (KeyError "c").
Proof.
  assert (R : resolvable (Seconds (Int 0)) default_tmin (to_float 1) ["c"])
    by (split; [exact I|intros x _; reflexivity]).
  split; [exact R|].
  apply (covariates_need_tmax_mapping Scenario.no_segments Scenario.repaired
           Scenario.slope_raw Scenario.slope_events (Seconds (Int 0)) (Int 1) "c"
           [2; 3; 5]%Q [] (RejectFlag true) None R).
Defined.



Lemma first_binary_windows tmin tmax sfreq c ids eids covariates :
  resolvable tmin default_tmin sfreq (conds_of ((c, ids) :: eids) covariates) ->
  resolvable tmax default_tmax sfreq
    (match tmax with
     | Seconds _ => keys ((c, ids) :: eids)
     | _ => conds_of ((c, ids) :: eids) covariates
     end) ->
  exists tmin' tmax',
    resolve_windows tmin tmax sfreq (conds_of ((c, ids) :: eids) covariates)
      (keys ((c, ids) :: eids)) = Ok (tmin', tmax') /\
    dict_get tmin' c = Some (samples_for tmin c default_tmin sfreq) /\
    dict_get tmax' c = Some (samples_for tmax c default_tmax sfreq).
Proof.
  intros Hn Hx. do 2 eexists. split.
  - apply resolve_windows_numeric; assumption.
  - split.
    + apply (dict_get_map_head (fun k => samples_for tmin k default_tmin sfreq)).
    + assert (H : exists l,
                 match tmax with
                 | Seconds _ => keys ((c, ids) :: eids)
                 | _ => conds_of ((c, ids) :: eids) covariates
                 end = c :: l).
      { destruct tmax; eexists; reflexivity. }
      destruct H as [l ->].
      apply (dict_get_map_head (fun k => samples_for tmax k default_tmax sfreq)).
Qed.

(** X10. If the window of the first binary condition resolves to
    [tmax_samples < tmin_samples], the call raises [ValueError] (negative
    dimensions), whatever names are bound. *)
Theorem inverted_first_window_raises detect extra raw events c ids eids
    tmin tmax covariates reject tstep :
  resolvable tmin default_tmin (info_sfreq raw)
    (conds_of ((c, ids) :: eids) covariates) ->
  resolvable tmax default_tmax (info_sfreq raw)
    (match tmax with
     | Seconds _ => keys ((c, ids) :: eids)
     | _ => conds_of ((c, ids) :: eids) covariates
     end) ->
  samples_for tmax c default_tmax (info_sfreq raw)
  < samples_for tmin c default_tmin (info_sfreq raw) ->
  regress_continuous detect extra raw events (Some ((c, ids) :: eids))
    tmin tmax covariates reject tstep
  = Err (ValueError "negative dimensions are not allowed").
Proof.
  intros Hn Hx Hlt.
  destruct (first_binary_windows tmin tmax (info_sfreq raw) c ids eids covariates
              Hn Hx) as (tmin' & tmax' & Hw & Ha & Hb).
  eapply first_pass_error_is_call_error; [reflexivity|exact Hw|].
  eapply allocation_negative; eassumption.
Qed.

(** The window [0.3 s, 0.29 s) at 100 Hz: the bounds come to 30 and 28
    samples. *)
Lemma inverted_first_window_raises_witness :
  samples_for (Seconds (Float (decimal 29 100))) "a" default_tmax (to_float 100)
  = 28 /\
  samples_for (Seconds (Float (decimal 3 10))) "a" default_tmin (to_float 100)
  = 30 /\
  regress_continuous Scenario.no_segments Scenario.repaired Scenario.trial_raw
    Scenario.trial_events (Some [("a", Code 1)])
    (Seconds (Float (decimal 3 10))) (Seconds (Float (decimal 29 100)))
    None (RejectFlag true) None
  = Err (ValueError "negative dimensions are not allowed").
Proof.
  split; [reflexivity|]. split; [reflexivity|].
  apply (inverted_first_window_raises Scenario.no_segments Scenario.repaired
           Scenario.trial_raw Scenario.trial_events "a" (Code 1) []
           (Seconds (Float (decimal 3 10))) (Seconds (Float (decimal 29 100)))
           None (RejectFlag true) None).
  - split; [exact I|intros x _; reflexivity].
  - split; [exact I|intros x _; reflexivity].
  - vm_compute. reflexivity.
Defined.



(** ** Arguments the docstring allows and the code rejects *)

Lemma mapM_window_get_none d default sfreq c :
  forall conds,
    In c conds -> dict_get d c = Some None ->
    (forall x, In x conds ->
       dict_get d x = Some None \/
       is_finite (product (seconds_for (PerCondition d) x default) sfreq) = true) ->
    mapM (fun cond => v <- window_get d cond default sfreq ;; Ok (cond, v)) conds
    = Err (TypeError "unsupported operand type(s) for *: 'NoneType' and 'float'").
Proof.
  induction conds as [|c0 conds IH]; intros Hin Hd Hfin; [destruct Hin|].
  cbn [mapM]. unfold window_get at 1.
  destruct (Hfin c0 (or_introl eq_refl)) as [E0|F0].
  - rewrite E0. reflexivity.
  - assert (Hrest : forall x, In x conds ->
              dict_get d x = Some None \/
              is_finite (product (seconds_for (PerCondition d) x default) sfreq)
              = true)
      by (intros x Hx; apply Hfin; right; exact Hx).
    cbn [seconds_for] in F0.
    destruct (dict_get d c0) as [[s0|]|] eqn:E0; try reflexivity;
      (rewrite (to_samples_finite _ _ F0); cbn [bind];
       destruct Hin as [->|Hin]; [congruence|];
       rewrite (IH Hin Hd Hrest); reflexivity).
Qed.

(** X12. [tmin=None] (which the docstring lists) raises [AttributeError] as soon
    as there is a condition, and so does [tmax=None] after a [tmin] that
    resolves; a [None] among the values of a [tmin] mapping, for one of the
    conditions, raises [TypeError] instead of falling back to the default
    (the other conditions having [None] or a number with a finite
    product); the default [event_id=None] raises [AttributeError]. *)
Theorem none_arguments_raise detect extra raw events eid covariates reject tstep :
  (forall tmin tmax,
      regress_continuous detect extra raw events None tmin tmax covariates
        reject tstep
      = Err (AttributeError "'NoneType' object has no attribute 'keys'")) /\
  (conds_of eid covariates <> [] ->
   (forall tmax,
       regress_continuous detect extra raw events (Some eid) NoWindow tmax
         covariates reject tstep
       = Err (AttributeError "'NoneType' object has no attribute 'get'")) /\
   (forall tmin,
       resolvable tmin default_tmin (info_sfreq raw) (conds_of eid covariates) ->
       regress_continuous detect extra raw events (Some eid) tmin NoWindow
         covariates reject tstep
       = Err (AttributeError "'NoneType' object has no attribute 'get'"))) /\
  (forall d c tmax,
      In c (conds_of eid covariates) ->
      dict_get d c = Some None ->
      (forall x, In x (conds_of eid covariates) ->
         dict_get d x = Some None \/
         is_finite (product (seconds_for (PerCondition d) x default_tmin)
                      (info_sfreq raw)) = true) ->
      regress_continuous detect extra raw events (Some eid) (PerCondition d) tmax
        covariates reject tstep
      = Err (TypeError "unsupported operand type(s) for *: 'NoneType' and 'float'")).
Proof.
  split; [reflexivity|]. split.
  - intros Hne. destruct (conds_of eid covariates) as [|c0 conds] eqn:Hc;
      [contradiction|]. split.
    + intros tmax. apply window_error_is_call_error. rewrite Hc. reflexivity.
    + intros tmin Hn. apply window_error_is_call_error. unfold resolve_windows.
      rewrite Hc.
      rewrite (resolve_window_numeric tmin) by (destruct tmin; exact Hn).
      cbn [bind]. reflexivity.
  - intros d c tmax Hin Hd Hfin. apply window_error_is_call_error.
    unfold resolve_windows. cbn [resolve_window].
    rewrite (mapM_window_get_none d default_tmin (info_sfreq raw) c _ Hin Hd Hfin).
    reflexivity.
Qed.

Lemma none_arguments_raise_witness :
  regress_continuous Scenario.no_segments Scenario.repaired Scenario.kernel_raw
    Scenario.kernel_events (Some Scenario.kernel_event_id) NoWindow
    (Seconds (Int 1)) None (RejectFlag true) None
  = Err (AttributeError "'NoneType' object has no attribute 'get'") /\
  regress_continuous Scenario.no_segments Scenario.repaired Scenario.kernel_raw
    Scenario.kernel_events (Some Scenario.kernel_event_id)
    (Seconds (Int 0)) NoWindow None (RejectFlag true) None
  = Err (AttributeError "'NoneType' object has no attribute 'get'") /\
  regress_continuous Scenario.no_segments Scenario.repaired Scenario.kernel_raw
    Scenario.kernel_events (Some Scenario.kernel_event_id)
    (PerCondition [("a", None)]) (Seconds (Int 1)) None (RejectFlag true) None
  = Err (TypeError "unsupported operand type(s) for *: 'NoneType' and 'float'").
Proof.
  destruct (none_arguments_raise Scenario.no_segments Scenario.repaired
              Scenario.kernel_raw Scenario.kernel_events
              Scenario.kernel_event_id None (RejectFlag true) None)
    as (_ & Hattr & Htype).
  destruct Hattr as [Hmin Hmax]; [discriminate|].
  split; [apply Hmin|]. split.
  - apply Hmax. split; [exact I|intros x _; reflexivity].
  - apply (Htype [("a", None)] "a" (Seconds (Int 1))); [left; reflexivity|reflexivity|].
    intros x [<-|[]]. left. reflexivity.
Defined.

(** * [linear_regression] and [_fit_lm]: argument handling *)

(** ** Default regressor names (lines 58-59) *)

Lemma format_x_inj (i j : nat) : format_x i = format_x j -> i = j.
Proof.
  unfold format_x. cbn. intros [= H].
  apply (f_equal NilEmpty.uint_of_string) in H.
  rewrite !NilEmpty.usu in H. injection H as H.
  apply (f_equal Nat.of_uint) in H. rewrite !Unsigned.of_to in H. exact H.
Qed.

Lemma format_x_NoDup (s n : nat) : List.NoDup (map format_x (seq s n)).
Proof.
  apply Finite.Injective_map_NoDup; [|apply seq_NoDup].
  intros i j. apply format_x_inj.
Qed.

(** X13. With [names=None] and a design matrix without a second axis, every
    call raises [IndexError] before the input is looked at. *)
Theorem default_names_need_second_axis fit_kernel assign inst design_matrix :
  (length (t_shape design_matrix) < 2)%nat ->
  linear_regression fit_kernel assign inst design_matrix None
  = Raised (Exn (IndexError "tuple index out of range")).
Proof.
  intros Hdim. unfold linear_regression, default_names, shape_1.
  destruct (t_shape design_matrix) as [|r [|p rest]]; cbn in Hdim;
    [reflexivity|reflexivity|lia].
Qed.

Lemma default_names_need_second_axis_witness :
  linear_regression (fun _ _ _ => Raised StopIteration) (fun a _ => Returned a)
    (ListInstance []) (mk_tensor [3%nat] [1; 2; 3]%Q) None
  = Raised (Exn (IndexError "tuple index out of range")).
Proof.
  apply (default_names_need_second_axis (fun _ _ _ => Raised StopIteration)
           (fun a _ => Returned a) (ListInstance [])
           (mk_tensor [3%nat] [1; 2; 3]%Q)).
  cbn. lia.
Defined.

(** X14. The default names are x0, x1, ... in decimal, one per column of the
    design matrix and pairwise distinct; on a 2-d design matrix whose row
    count is the number of observations they pass the checks of [_fit_lm],
    which hands over to the numerical part. *)
Theorem default_names_fit_design fit_kernel (design_matrix data : tensor)
    (n_rows n_predictors : nat) :
  t_shape design_matrix = [n_rows; n_predictors] ->
  tensor_len data = Ok n_rows ->
  exists names,
    default_names design_matrix = Ok names /\
    length names = n_predictors /\
    List.NoDup names /\
    (forall i, (i < n_predictors)%nat ->
               nth i names ""
               = "x" ++ NilEmpty.string_of_uint (Nat.to_uint i)) /\
    _fit_lm fit_kernel data design_matrix names
    = fit_kernel data design_matrix names.
Proof.
  intros Hshape Hlen. exists (map format_x (seq 0 n_predictors)).
  split; [unfold default_names, shape_1; rewrite Hshape; reflexivity|].
  split; [rewrite length_map, length_seq; reflexivity|].
  split; [apply format_x_NoDup|]. split.
  - intros i Hi. rewrite (nth_map_seq format_x) by exact Hi. reflexivity.
  - unfold _fit_lm. rewrite Hlen, Hshape. cbn [lift and_then].
    rewrite Nat.eqb_refl, length_map, length_seq, Nat.eqb_refl. reflexivity.
Qed.

Lemma default_names_fit_design_witness :
  exists names,
    default_names (mk_tensor [2; 3]%nat [1; 0; 0; 1; 1; 1]%Q) = Ok names /\
    names = ["x0"; "x1"; "x2"] /\
    _fit_lm (fun _ _ _ => Raised StopIteration)
      (mk_tensor [2; 1]%nat [5; 6]%Q)
      (mk_tensor [2; 3]%nat [1; 0; 0; 1; 1; 1]%Q) names
    = Raised StopIteration.
Proof.
  destruct (default_names_fit_design (fun _ _ _ => Raised StopIteration)
              (mk_tensor [2; 3]%nat [1; 0; 0; 1; 1; 1]%Q)
              (mk_tensor [2; 1]%nat [5; 6]%Q) 2 3 eq_refl eq_refl)
    as (names & Hnames & _ & _ & _ & Hfit).
  exists names. split; [exact Hnames|].
  split; [vm_compute in Hnames; congruence|exact Hfit].
Defined.

(** ** Input dispatch (lines 61-81) *)

(** X15. The input is examined before the design matrix: an empty list raises
    [IndexError] and an empty generator [StopIteration] (not the
    [ValueError] of line 80), a list whose first element is not a source
    estimate and any other object raise that [ValueError]; the items of a
    generator are not checked. *)
Theorem input_is_checked_first fit_kernel assign design_matrix names :
  linear_regression fit_kernel assign (ListInstance []) design_matrix (Some names)
  = Raised (Exn (IndexError "list index out of range")) /\
  linear_regression fit_kernel assign (GeneratorInstance []) design_matrix
    (Some names)
  = Raised StopIteration /\
  linear_regression fit_kernel assign OtherInstance design_matrix (Some names)
  = Raised (Exn (ValueError "Input must be epochs or iterable of source estimates")) /\
  (forall d rest,
      linear_regression fit_kernel assign (ListInstance (Evoked d :: rest))
        design_matrix (Some names)
      = Raised (Exn (ValueError "Input must be epochs or iterable of source estimates")) /\
      linear_regression fit_kernel assign (ListInstance (OtherObject d :: rest))
        design_matrix (Some names)
      = Raised (Exn (ValueError "Input must be epochs or iterable of source estimates")) /\
      collect (GeneratorInstance (Evoked d :: rest))
      = Returned (Evoked d, np_array (d :: map data_of rest))).
Proof. repeat split. Qed.

(** ** Checks of the design matrix (lines 106-117) *)

Lemma collect_length inst items out data :
  inst = GeneratorInstance items \/ inst = ListInstance items ->
  collect inst = Returned (out, data) ->
  tensor_len data = Ok (length items).
Proof.
  intros [-> | ->]; cbn [collect].
  - destruct items as [|c rest]; [discriminate|]. intros [= <- <-].
    unfold tensor_len. cbn. rewrite length_map. reflexivity.
  - destruct items as [|[d|d|d] rest]; try discriminate. intros [= <- <-].
    unfold tensor_len. cbn. rewrite length_map. reflexivity.
Qed.

(** X16. For a generator or an accepted list, with names given: the number of
    observations is the number of items; a design matrix that is not 2-d
    raises the first [ValueError], one whose row count differs from the
    number of items the second (even if the names are miscounted too), and
    one whose column count differs from the number of names the third. *)
Theorem design_checks_in_order fit_kernel assign inst items out data
    design_matrix names :
  inst = GeneratorInstance items \/ inst = ListInstance items ->
  collect inst = Returned (out, data) ->
  (length (t_shape design_matrix) <> 2%nat ->
   linear_regression fit_kernel assign inst design_matrix (Some names)
   = Raised (Exn (ValueError "Design matrix must be a 2d array"))) /\
  (forall n_rows n_predictors,
      t_shape design_matrix = [n_rows; n_predictors] ->
      n_rows <> length items ->
      linear_regression fit_kernel assign inst design_matrix (Some names)
      = Raised (Exn (ValueError "Number of rows in design matrix must be equal to number of observations"))) /\
  (forall n_predictors,
      t_shape design_matrix = [length items; n_predictors] ->
      n_predictors <> length names ->
      linear_regression fit_kernel assign inst design_matrix (Some names)
      = Raised (Exn (ValueError "Number of regressor names must be equal to number of column in design matrix"))).
Proof.
  intros Hinst Hcollect.
  pose proof (collect_length _ _ _ _ Hinst Hcollect) as Hlen.
  unfold linear_regression. cbn [and_then]. rewrite Hcollect. cbn [and_then snd fst].
  unfold _fit_lm. rewrite Hlen. cbn [lift and_then].
  split; [|split].
  - intros Hdim. destruct (t_shape design_matrix) as [|r [|p [|q rest]]];
      try reflexivity. cbn in Hdim. contradiction.
  - intros n_rows n_predictors -> Hrows.
    destruct (Nat.eqb_spec (length items) n_rows) as [E|E]; [congruence|].
    reflexivity.
  - intros n_predictors -> Hcols. rewrite Nat.eqb_refl. cbn [negb].
    destruct (Nat.eqb_spec n_predictors (length names)) as [E|E];
      [contradiction|]. reflexivity.
Qed.

Lemma design_checks_in_order_witness :
  linear_regression (fun _ _ _ => Raised StopIteration) (fun a _ => Returned a)
    (ListInstance [SourceEstimate (mk_tensor [1%nat] [1%Q]);
                   SourceEstimate (mk_tensor [1%nat] [2%Q])])
    (mk_tensor [3; 1]%nat [1; 1; 1]%Q) (Some ["a"; "b"])
  = Raised (Exn (ValueError "Number of rows in design matrix must be equal to number of observations")).
Proof.
  destruct (design_checks_in_order (fun _ _ _ => Raised StopIteration)
              (fun a _ => Returned a)
              (ListInstance [SourceEstimate (mk_tensor [1%nat] [1%Q]);
                             SourceEstimate (mk_tensor [1%nat] [2%Q])])
              [SourceEstimate (mk_tensor [1%nat] [1%Q]);
               SourceEstimate (mk_tensor [1%nat] [2%Q])]
              _ _ (mk_tensor [3; 1]%nat [1; 1; 1]%Q) ["a"; "b"]
              (or_intror eq_refl) eq_refl)
    as (_ & Hrows & _).
  apply (Hrows 3%nat 1%nat eq_refl). cbn. lia.
Defined.

(** ** The returned fits (lines 84-100) *)

Lemma fill_same_kind assign out value c :
  fill assign out value = Returned c -> same_kind out c.
Proof.
  destruct out as [d|d|d]; cbn [fill]; [| |discriminate];
    destruct (assign d value) as [d'|e]; cbn [and_then]; try discriminate;
    intros [= <-]; exact I.
Qed.

Lemma fit_of_kinds assign out params name fit :
  fit_of assign out params name = Returned fit ->
  same_kind out (beta fit) /\ same_kind out (stderr fit) /\
  same_kind out (t_val fit) /\ same_kind out (p_val fit) /\
  same_kind out (mlog10_p_val fit) /\
  exists b, dict_get (p_beta params) name = Some b /\
            fill assign out b = Returned (beta fit).
Proof.
  unfold fit_of, dict_item.
  destruct (dict_get (p_beta params) name) as [b|]; [|discriminate].
  destruct (dict_get (p_stderr params) name) as [s|]; [|discriminate].
  destruct (dict_get (p_t_val params) name) as [t|]; [|discriminate].
  destruct (dict_get (p_p_val params) name) as [p|]; [|discriminate].
  destruct (dict_get (p_mlog10_p_val params) name) as [m|]; [|discriminate].
  cbn [lift and_then].
  destruct (fill assign out b) as [b'|] eqn:Eb; [|discriminate].
  destruct (fill assign out s) as [s'|] eqn:Es; [|discriminate].
  destruct (fill assign out t) as [t'|] eqn:Et; [|discriminate].
  destruct (fill assign out p) as [p'|] eqn:Ep; [|discriminate].
  destruct (fill assign out m) as [m'|] eqn:Em; [|discriminate].
  cbn [and_then]. intros [= <-]. cbn [beta stderr t_val p_val mlog10_p_val].
  apply fill_same_kind in Es, Et, Ep, Em.
  pose proof (fill_same_kind _ _ _ _ Eb) as Hb.
  repeat split; try assumption. exists b. split; [reflexivity|exact Eb].
Qed.

Lemma fit_all_entries assign out params :
  forall names fits0 fits,
    fit_all assign out params names fits0 = Returned fits ->
    (forall name, In name names ->
                  exists fit, fit_of assign out params name = Returned fit /\
                              dict_get fits name = Some fit) /\
    (forall name, ~ In name names -> dict_get fits name = dict_get fits0 name).
Proof.
  induction names as [|name0 names IH]; intros fits0 fits.
  - cbn. intros [= <-]. split; [intros name []|reflexivity].
  - cbn [fit_all].
    destruct (fit_of assign out params name0) as [fit0|] eqn:E0; [|discriminate].
    cbn [and_then]. intros H. apply IH in H. destruct H as [Hin Hout]. split.
    + intros name [<-|Hn].
      * destruct (in_dec string_dec name0 names) as [Hl|Hl]; [apply Hin, Hl|].
        exists fit0. split; [exact E0|]. rewrite (Hout _ Hl).
        apply dict_get_set_eq.
      * apply Hin, Hn.
    + intros name Hn. rewrite Hout by (intros Hl; apply Hn; right; exact Hl).
      apply dict_get_set_ne. intros ->. apply Hn. left. reflexivity.
Qed.

(** X17. Whenever [linear_regression] returns: the mapping has an entry for
    every regressor name (the given ones, or the default ones) and for
    nothing else; the five members of an entry are copies of one template -
    an evoked response for epochs, the first item for a list or a
    generator - of the template's class; and with at least one name the
    template is a source estimate or an evoked response. *)
Theorem returned_fits fit_kernel assign inst design_matrix names fits :
  linear_regression fit_kernel assign inst design_matrix names = Returned fits ->
  exists names' out data,
    match names with
    | Some l => names' = l
    | None => default_names design_matrix = Ok names'
    end /\
    collect inst = Returned (out, data) /\
    match inst with
    | EpochsInstance ep =>
        out = Evoked (zeros_of_shape (tl (t_shape (ep_data ep))))
    | GeneratorInstance items | ListInstance items => head items = Some out
    | OtherInstance => False
    end /\
    (names' <> [] -> forall d, out <> OtherObject d) /\
    (forall name, ~ In name names' -> dict_get fits name = None) /\
    forall name,
      In name names' ->
      exists fit,
        dict_get fits name = Some fit /\
        same_kind out (beta fit) /\ same_kind out (stderr fit) /\
        same_kind out (t_val fit) /\ same_kind out (p_val fit) /\
        same_kind out (mlog10_p_val fit).
Proof.
  unfold linear_regression. intros H.
  assert (Hnames : exists names',
             match names with
             | Some l => names' = l
             | None => default_names design_matrix = Ok names'
             end /\
             (c <-- collect inst ;;
              lm_params <-- _fit_lm fit_kernel (snd c) design_matrix names' ;;
              fit_all assign (fst c) lm_params names' []) = Returned fits).
  { destruct names as [l|].
    - exists l. split; [reflexivity|exact H].
    - destruct (default_names design_matrix) as [l|e]; [|discriminate].
      exists l. split; [reflexivity|exact H]. }
  clear H. destruct Hnames as (names' & Hn & H).
  destruct (collect inst) as [[out data]|e] eqn:Ec; [|discriminate].
  cbn [and_then fst snd] in H.
  destruct (_fit_lm fit_kernel data design_matrix names') as [params|e] eqn:Ef;
    [|discriminate].
  cbn [and_then] in H. apply fit_all_entries in H. destruct H as [Hin Hout].
  exists names', out, data. split; [exact Hn|]. split; [reflexivity|].
  split; [|split; [|split]].
  - destruct inst as [ep|items|items|]; cbn [collect] in Ec.
    + injection Ec as <- _. reflexivity.
    + destruct items as [|c rest]; [discriminate|]. injection Ec as <- _.
      reflexivity.
    + destruct items as [|[d|d|d] rest]; try discriminate. injection Ec as <- _.
      reflexivity.
    + discriminate.
  - intros Hne d ->. destruct names' as [|name0 rest]; [contradiction|].
    destruct (Hin name0 (or_introl eq_refl)) as (fit & Hfit & _).
    apply fit_of_kinds in Hfit. destruct Hfit as (Hk & _). exact Hk.
  - intros name Hname. rewrite (Hout name Hname). reflexivity.
  - intros name Hname. destruct (Hin name Hname) as (fit & Hfit & Hget).
    exists fit. split; [exact Hget|].
    apply fit_of_kinds in Hfit.
    destruct Hfit as (H1 & H2 & H3 & H4 & H5 & _).
    repeat split; assumption.
Qed.

Lemma returned_fits_witness :
  exists fits fit,
    linear_regression
      (fun _ _ names =>
         Returned
           (mk_lm_params
              (map (fun n => (n, mk_tensor [1%nat] [1%Q])) names)
              (map (fun n => (n, mk_tensor [1%nat] [2%Q])) names)
              (map (fun n => (n, mk_tensor [1%nat] [3%Q])) names)
              (map (fun n => (n, mk_tensor [1%nat] [4%Q])) names)
              (map (fun n => (n, mk_tensor [1%nat] [5%Q])) names)))
      (fun _ value => Returned value)
      (ListInstance [SourceEstimate (mk_tensor [1%nat] [7%Q]);
                     SourceEstimate (mk_tensor [1%nat] [9%Q])])
      (mk_tensor [2; 1]%nat [1; 1]%Q) None
    = Returned fits /\
    dict_get fits "x0" = Some fit /\
    same_kind (SourceEstimate (mk_tensor [1%nat] [7%Q])) (beta fit).
Proof.
  eexists.
  destruct (returned_fits
              (fun _ _ names =>
                 Returned
                   (mk_lm_params
                      (map (fun n => (n, mk_tensor [1%nat] [1%Q])) names)
                      (map (fun n => (n, mk_tensor [1%nat] [2%Q])) names)
                      (map (fun n => (n, mk_tensor [1%nat] [3%Q])) names)
                      (map (fun n => (n, mk_tensor [1%nat] [4%Q])) names)
                      (map (fun n => (n, mk_tensor [1%nat] [5%Q])) names)))
              (fun _ value => Returned value)
              (ListInstance [SourceEstimate (mk_tensor [1%nat] [7%Q]);
                             SourceEstimate (mk_tensor [1%nat] [9%Q])])
              (mk_tensor [2; 1]%nat [1; 1]%Q) None _
              ltac:(vm_compute; reflexivity))
    as (names' & out & data & Hn & Hc & Hout & _ & _ & Hin).
  vm_compute in Hn. injection Hn as <-.
  cbn in Hout. injection Hout as <-.
  destruct (Hin "x0") as (fit & Hget & Hk & _); [left; reflexivity|].
  exists fit. split; [vm_compute; reflexivity|]. split; [exact Hget|exact Hk].
Defined.
